(** * pymobiledevice3 [__main__]: the lazy command-group providers and the
      error-classifying dispatcher

    A shallow embedding of [src/pymobiledevice3/__main__.py].

    - [Module Py]         the Python values and exceptions the file handles;
    - [Module Lazy]       [Pmd3Cli], its [functools.cached_property] [_impg],
                          the import system it calls and the [CLI_GROUPS] table;
    - [Module Dispatch]   [main]: the [try: cli() except ...] chain and the
                          retry through [sys.argv += ...; return main()];
    - [Module Resolution] a provider that fails to resolve, seen from [main];
    - [Module Scenario]   concrete commands, modules and providers.

    The properties follow the definitions.  External collaborators ([click],
    the device commands behind [cli()], [get_os_utils], the installed
    modules) are section variables. *)

From stdpp Require Import gmap strings list fin_maps sorting pretty.

(* ===================================================================== *)
(** ** Python values and exceptions *)
(* ===================================================================== *)

Module Py.

(** An element of [sys.argv] or an optional exception field: a [str] or
    [None].  ([sys.argv += ['--tunnel', e.identifier]] appends whatever
    [e.identifier] is.) *)
Inductive PyVal : Type :=
| PyNone
| PyStr (s : string).

#[global] Instance PyVal_eq_dec : EqDecision PyVal.
Proof. solve_decision. Defined.

(** [x in l] on a Python list: some element equals [x]. *)
Definition py_in (x : PyVal) (l : list PyVal) : bool :=
  existsb (fun y => bool_decide (y = x)) l.

(** [f'{v}'] *)
Definition py_format (v : PyVal) : string :=
  match v with
  | PyNone => "None"
  | PyStr s => s
  end.

(** The line feed of a [\n] escape. *)
Definition newline : string := String (Ascii.ascii_of_nat 10) EmptyString.

(** The exception classes that [__main__.py] names in its [except] clauses,
    the ones the import machinery raises, and any other class (by name). *)
Inductive ExcClass : Type :=
| NoDeviceConnectedError
| ConnectionAbortedError
| NotPairedError
| UserDeniedPairingError
| PairingDialogResponsePendingError
| SetProhibitedError
| MissingValueError
| DeviceHasPasscodeSetError
| DeveloperModeError
| ConnectionFailedToUsbmuxdError
| MessageNotSupportedError
| InternalError
| DeveloperModeIsNotEnabledError
| InvalidServiceError
| RSDRequiredError
| NoDeviceSelectedError
| PasswordRequiredError
| AccessDeniedError
| BrokenPipeError
| TunneldConnectionError
| DeviceNotFoundError
| NotEnoughDiskSpaceError
| DeprecationError
| OSNotSupportedError
| FeatureNotSupportedError
| ModuleNotFoundError
| AttributeError
| ValueError
| OtherError (class_name : string).

#[global] Instance ExcClass_eq_dec : EqDecision ExcClass.
Proof. solve_decision. Defined.

(** Modelled from the spec: [pymobiledevice3/exceptions.py] (the class
    declarations) is not among the sources.  Following the spec's
    FailureRecord, "the structured exception instance raised by a
    collaborator, carrying a failure kind tag and optional fields
    (identifier, osName, feature)", an exception carries one class tag and
    its fields; [exc_str] is [str(e)] and [udid] the field read by the
    device-not-found clause. *)
Record PyExc : Type := mkExc {
  exc_class : ExcClass;
  identifier : PyVal;
  udid : PyVal;
  os_name : PyVal;
  feature : PyVal;
  exc_str : string
}.

#[global] Instance PyExc_eq_dec : EqDecision PyExc.
Proof. solve_decision. Defined.

(** [isinstance(e, C)] over the flat set of kinds above. *)
Definition isinstance (e : PyExc) (c : ExcClass) : bool :=
  bool_decide (exc_class e = c).

(** An exception with only a class and a message. *)
Definition plain_exc (c : ExcClass) (msg : string) : PyExc :=
  mkExc c PyNone PyNone PyNone PyNone msg.

(** The outcome of a Python call: a value or a raised exception. *)
Inductive PyResult (A : Type) : Type :=
| Ok (a : A)
| Raise (e : PyExc).
Arguments Ok {A} a.
Arguments Raise {A} e.

End Py.
Export Py.

(* ===================================================================== *)
(** ** The lazy command-group providers: [Pmd3Cli] *)
(* ===================================================================== *)

Module Lazy.

(** [s.split(sep, 1)] for a one-character separator: the whole string when
    [sep] does not occur, else the text before the first [sep] and the text
    after it. *)
Fixpoint py_split1 (sep : Ascii.ascii) (s : string) : list string :=
  match s with
  | EmptyString => [EmptyString]
  | String c rest =>
      if bool_decide (c = sep) then [EmptyString; rest]
      else match py_split1 sep rest with
           | hd :: tl => String c hd :: tl
           | [] => [String c EmptyString]
           end
  end.

Definition colon : Ascii.ascii := Ascii.ascii_of_nat 58.

(** [ClickGroup = collections.namedtuple("ClickGroup", "import_group short_help")] *)
Record ClickGroup : Type := mkClickGroup {
  import_group : string;
  short_help : string
}.

Definition CLI_GROUPS : list (string * ClickGroup) :=
  [ ("activation", mkClickGroup "activation:activation" "activation options");
    ("afc", mkClickGroup "afc:afc" "FileSystem utils");
    ("amfi", mkClickGroup "amfi:amfi" "amfi options");
    ("apps", mkClickGroup "apps:apps" "application options");
    ("backup2", mkClickGroup "backup:backup2" "backup utils");
    ("bonjour", mkClickGroup "bonjour:bonjour_cli" "bonjour options");
    ("companion", mkClickGroup "companion_proxy:companion" "companion options");
    ("crash", mkClickGroup "crash:crash" "crash report options");
    ("developer", mkClickGroup "developer:developer" "developer options");
    ("diagnostics", mkClickGroup "diagnostics:diagnostics" "diagnostic options");
    ("lockdown", mkClickGroup "lockdown:lockdown_group" "lockdown options");
    ("mounter", mkClickGroup "mounter:mounter" "mounter options");
    ("notification", mkClickGroup "notification:notification" "notification options");
    ("processes", mkClickGroup "processes:processes" "processes cli");
    ("profile", mkClickGroup "profile:profile_group" "foo");
    ("provision", mkClickGroup "provision:provision" "provision options");
    ("remote", mkClickGroup "remote:remote_cli" "remote options");
    ("restore", mkClickGroup "restore:restore" "restore options");
    ("springboard", mkClickGroup "springboard:springboard" "springboard options");
    ("syslog", mkClickGroup "syslog:syslog" "syslog options");
    ("usbmux", mkClickGroup "usbmux:usbmux_cli" "usbmuxd options");
    ("webinspector", mkClickGroup "webinspector:webinspector" "webinspector options") ].

(** What a resolved implementation must answer: the two methods that
    [Pmd3Cli] calls on [self._impg]. *)
Class CommandGroupHandle (Obj Ctx Command : Type) : Type := {
  obj_get_command : Obj -> Ctx -> string -> PyResult (option Command);
  obj_list_commands : Obj -> Ctx -> PyResult (list string)
}.

(** A plain [click.Group]: its [commands] dict; [get_command] is
    [self.commands.get(cmd_name)] and [list_commands] is
    [sorted(self.commands)]. *)
Record click_Group (Command : Type) : Type := mk_click_Group {
  commands : gmap string Command
}.
Arguments mk_click_Group {Command} commands.
Arguments commands {Command} _.

#[global] Instance click_Group_handle (Ctx Command : Type) :
  CommandGroupHandle (click_Group Command) Ctx Command := {
  obj_get_command g _ cmd_name := Ok (commands g !! cmd_name);
  obj_list_commands g _ := Ok (merge_sort String.le (map fst (map_to_list (commands g))))
}.

(** What [_impg] prints: the [f'{module=}, {name=}'] line, and twice an
    elapsed time (a difference of [time.perf_counter()] readings, whose
    value is not modelled). *)
Inductive Printed : Type :=
| PrintLocator (module name : string)
| PrintElapsed.

Section WithObjects.

(** The Python objects found as module attributes. *)
Context {Obj : Type}.

(** A loaded module: its [__name__] and its namespace. *)
Record PyModule : Type := mkModule {
  mod_name : string;
  mod_dict : gmap string Obj
}.

(** The interpreter state [_impg] touches: [sys.modules], the standard
    output, and a history variable [loads], the modules whose code the
    import system went to load, in order. *)
Record Interp : Type := mkInterp {
  sys_modules : gmap string PyModule;
  loads : list string;
  stdout : list Printed
}.

(** The modules that can be found and executed (the installed packages):
    [None] when importing the module does not succeed.  A module that is
    found is taken to execute without raising. *)
Variable loader : string -> option PyModule.

(** What [importlib.import_module] does when it does not succeed: the
    exception it raises ([ValueError] for an empty name, [TypeError] for a
    relative one, [ModuleNotFoundError] naming the module or the first
    parent package that is missing, or whatever the code of the module
    raised) and the interpreter as the attempt leaves it (parent packages
    imported on the way stay in [sys.modules]).  This is the import system's
    own behaviour; [__main__.py] adds nothing to it. *)
Class ImportFailure : Type :=
  import_failure : string -> Interp -> PyExc * Interp.

Context `{!ImportFailure}.

(** Python code that reads and changes the interpreter state and may raise. *)
Definition M (A : Type) : Type := Interp -> PyResult A * Interp.

#[local] Instance M_ret : MRet M := fun A a st => (Ok a, st).

#[local] Instance M_bind : MBind M := fun A B k c st =>
  match c st with
  | (Ok a, st1) => k a st1
  | (Raise e, st1) => (Raise e, st1)
  end.

Definition raise {A : Type} (e : PyExc) : M A := fun st => (Raise e, st).

Definition print (x : Printed) : M unit := fun st =>
  (Ok tt, mkInterp (sys_modules st) (loads st) (stdout st ++ [x])).

(** [importlib.import_module(name)]: a module already in [sys.modules] is
    returned as it is; otherwise the module is loaded and entered into
    [sys.modules], or the import fails as [import_failure] says. *)
Definition import_module (name : string) : M PyModule := fun st =>
  match sys_modules st !! name with
  | Some m => (Ok m, st)
  | None =>
      match loader name with
      | Some m =>
          (Ok m, mkInterp (<[name := m]> (sys_modules st))
                          (loads st ++ [name]) (stdout st))
      | None =>
          let '(e, st1) := import_failure name st in (Raise e, st1)
      end
  end.

(** [getattr(module, name)] *)
Definition getattr (m : PyModule) (name : string) : M Obj :=
  match mod_dict m !! name with
  | Some o => mret o
  | None =>
      raise (plain_exc AttributeError
               ("module '" +:+ mod_name m +:+ "' has no attribute '"
                +:+ name +:+ "'"))
  end.

(** [module, name = parts]: exactly two values, else [ValueError]. *)
Definition unpack2 (parts : list string) : M (string * string) :=
  match parts with
  | [a; b] => mret (a, b)
  | [] | [_] =>
      raise (plain_exc ValueError
               ("not enough values to unpack (expected 2, got "
                +:+ pretty (length parts) +:+ ")"))
  | _ =>
      raise (plain_exc ValueError "too many values to unpack (expected 2)")
  end.

(** A [Pmd3Cli] instance: [_import_name], the [name] and [short_help]
    keywords handed on to [click.Group.__init__], and the slot in which
    [functools.cached_property] keeps [_impg] once it has been computed. *)
Record Pmd3Cli : Type := mkPmd3Cli {
  _import_name : string;
  name : string;
  group_short_help : string;
  _impg_slot : option Obj
}.

(** [Pmd3Cli.__init__(self, import_name, **kwargs)] *)
Definition Pmd3Cli_init (import_name : string) (kw_name kw_short_help : string)
  : M Pmd3Cli :=
  mret (mkPmd3Cli import_name kw_name kw_short_help None).

(** The body of [_impg] (what runs when the slot is empty). *)
Definition _impg_body (self : Pmd3Cli) : M Obj :=
  '(module, name) ← unpack2 (py_split1 colon (_import_name self));
  print (PrintLocator module name);;
  m ← import_module module;
  _attr ← getattr m name;
  print PrintElapsed;;
  m ← import_module module;
  _attr ← getattr m name;
  print PrintElapsed;;
  mret _attr.

(** [self._impg] under [@functools.cached_property]: the stored value when
    there is one; otherwise the body runs and its value is stored.  When
    the body raises nothing is stored. *)
Definition _impg (self : Pmd3Cli) (st : Interp)
  : PyResult Obj * Pmd3Cli * Interp :=
  match _impg_slot self with
  | Some o => (Ok o, self, st)
  | None =>
      match _impg_body self st with
      | (Ok o, st1) =>
          (Ok o,
           mkPmd3Cli (_import_name self) (name self) (group_short_help self)
                     (Some o),
           st1)
      | (Raise e, st1) => (Raise e, self, st1)
      end
  end.

Context {Ctx Command : Type} `{!CommandGroupHandle Obj Ctx Command}.

(** [Pmd3Cli.get_command(self, ctx, cmd_name)] *)
Definition get_command (self : Pmd3Cli) (ctx : Ctx) (cmd_name : string)
  (st : Interp) : PyResult (option Command) * Pmd3Cli * Interp :=
  match _impg self st with
  | (Ok g, self1, st1) => (obj_get_command g ctx cmd_name, self1, st1)
  | (Raise e, self1, st1) => (Raise e, self1, st1)
  end.

(** [Pmd3Cli.list_commands(self, ctx)] *)
Definition list_commands (self : Pmd3Cli) (ctx : Ctx)
  (st : Interp) : PyResult (list string) * Pmd3Cli * Interp :=
  match _impg self st with
  | (Ok g, self1, st1) => (obj_list_commands g ctx, self1, st1)
  | (Raise e, self1, st1) => (Raise e, self1, st1)
  end.

(** [_create_click_group(name, group)]: the [Pmd3Cli] that
    [@cli.group(cls=Pmd3Cli, import_name=..., name=..., short_help=...)]
    constructs. *)
Definition _create_click_group (name : string) (group : ClickGroup)
  : M Pmd3Cli :=
  Pmd3Cli_init ("pymobiledevice3.cli." +:+ import_group group)
               name (short_help group).

(** The module-level loop [for _k, _v in CLI_GROUPS.items(): ...]: one
    provider per entry, in the order of the table. *)
Fixpoint create_groups (table : list (string * ClickGroup))
  : M (list (string * Pmd3Cli)) :=
  match table with
  | [] => mret []
  | (_k, _v) :: rest =>
      group_func ← _create_click_group _k _v;
      others ← create_groups rest;
      mret ((_k, group_func) :: others)
  end.

(** The module that [import_module name] yields in state [st], if any: the
    entry of [sys.modules], else what the loader finds. *)
Definition find_module (st : Interp) (name : string) : option PyModule :=
  match sys_modules st !! name with
  | Some m => Some m
  | None => loader name
  end.

(** The load that [import_module name] performs in state [st]: none when
    the module is already in [sys.modules]. *)
Definition load_of (st : Interp) (name : string) : list string :=
  match sys_modules st !! name with
  | Some _ => []
  | None => [name]
  end.

(** How many times module [n] was loaded so far. *)
Definition load_count (st : Interp) (n : string) : nat :=
  length (filter (λ x, x = n) (loads st)).

(** The state of a process in which every module of [sys.modules] was put
    there by the import system, by a single load; a process starts in such
    a state (nothing imported, nothing loaded). *)
Definition loaded_once (st : Interp) : Prop :=
  forall n : string,
    match sys_modules st !! n with
    | Some m => loader n = Some m /\ load_count st n = 1
    | None => loader n ≠ None -> load_count st n = 0
    end.

(** A call of one of the two methods, and its answer. *)
Inductive Call : Type :=
| CallGetCommand (ctx : Ctx) (cmd_name : string)
| CallListCommands (ctx : Ctx).

Inductive Answer : Type :=
| GotCommand (r : PyResult (option Command))
| GotList (r : PyResult (list string)).

Definition perform (c : Call) (self : Pmd3Cli) (st : Interp)
  : Answer * Pmd3Cli * Interp :=
  match c with
  | CallGetCommand ctx cmd_name =>
      let '(r, self1, st1) := get_command self ctx cmd_name st in
      (GotCommand r, self1, st1)
  | CallListCommands ctx =>
      let '(r, self1, st1) := list_commands self ctx st in
      (GotList r, self1, st1)
  end.

(** What the resolved implementation [g] itself answers to a call. *)
Definition delegate (g : Obj) (c : Call) : Answer :=
  match c with
  | CallGetCommand ctx cmd_name => GotCommand (obj_get_command g ctx cmd_name)
  | CallListCommands ctx => GotList (obj_list_commands g ctx)
  end.

(** A sequence of calls on the same provider. *)
Fixpoint perform_all (cs : list Call) (self : Pmd3Cli) (st : Interp)
  : list Answer * Pmd3Cli * Interp :=
  match cs with
  | [] => ([], self, st)
  | c :: rest =>
      let '(a, self1, st1) := perform c self st in
      let '(answers, self2, st2) := perform_all rest self1 st1 in
      (a :: answers, self2, st2)
  end.

(** [s.split(sep)] for a one-character separator: all the pieces. *)
Fixpoint py_split (sep : Ascii.ascii) (s : string) : list string :=
  match s with
  | EmptyString => [EmptyString]
  | String c rest =>
      if bool_decide (c = sep) then EmptyString :: py_split sep rest
      else match py_split sep rest with
           | hd :: tl => String c hd :: tl
           | [] => [String c EmptyString]
           end
  end.

(** [CLI_GROUPS[name]]: the dict lookup, [None] standing for [KeyError]. *)
Definition CLI_GROUPS_get (name : string) : option ClickGroup :=
  (list_to_map CLI_GROUPS : gmap string ClickGroup) !! name.

(** [_get_module(name)]:
    [importlib.import_module(f'pymobiledevice3.cli.{CLI_GROUPS[name].import_group.split(":")[0]}')] *)
Definition _get_module (name : string) : M PyModule :=
  match CLI_GROUPS_get name with
  | None => raise (plain_exc (OtherError "KeyError") ("'" +:+ name +:+ "'"))
  | Some group =>
      match py_split colon (import_group group) with
      | first :: _ => import_module ("pymobiledevice3.cli." +:+ first)
      | [] => raise (plain_exc (OtherError "IndexError") "list index out of range")
      end
  end.

End WithObjects.

Arguments PyModule : clear implicits.
Arguments ImportFailure : clear implicits.
Arguments Interp : clear implicits.
Arguments Pmd3Cli : clear implicits.
Arguments M : clear implicits.

End Lazy.

(* ===================================================================== *)
(** ** The dispatcher: [main] *)
(* ===================================================================== *)

Module Dispatch.

Definition INVALID_SERVICE_MESSAGE : string :=
"Failed to start service. Possible reasons are:
- If you were trying to access a developer service (developer subcommand):
    - Make sure the DeveloperDiskImage/PersonalizedImage is mounted via:
      > python3 -m pymobiledevice3 mounter auto-mount

    - If your device iOS version >= 17.0:
        - Make sure you passed the --rsd option to the subcommand
          https://github.com/doronz88/pymobiledevice3#working-with-developer-tools-ios--170

- Apple removed this service

- A bug. Please file a bug report:
  https://github.com/doronz88/pymobiledevice3/issues/new?assignees=&labels=&projects=&template=bug_report.md&title=
".

(** What [main] writes for the operator: [logger.error], [logger.warning]
    and [traceback.print_exc()] (of the exception being handled). *)
Inductive Output : Type :=
| LogError (msg : string)
| LogWarning (msg : string)
| PrintExc (e : PyExc).

#[global] Instance Output_eq_dec : EqDecision Output.
Proof. solve_decision. Defined.

(** How a call of [main] ends: it returns [None], or an exception leaves it. *)
Inductive MainResult : Type :=
| Returned
| Propagated (e : PyExc).

Section WithCli.

(** Everything [cli()] can read and change besides [sys.argv]: the devices,
    the tunnel daemon, the loaded modules, ... *)
Context {World : Type}.

(** The process as [main] sees it.  [sys_argv] is the process-global list
    that [sys.argv += ...] extends in place; [cli_calls] is a history
    variable: the argument list at each entry into [cli()]. *)
Record Process : Type := mkProcess {
  sys_argv : list PyVal;
  output : list Output;
  cli_calls : list (list PyVal);
  world : World
}.

(** [cli()]: click parses [sys.argv] and runs the command; it returns or
    raises, and may change the world. *)
Variable cli : World -> list PyVal -> PyResult unit * World.

(** [get_os_utils().access_denied_error] *)
Variable access_denied_error : string.

Definition emit (o : Output) (p : Process) : Process :=
  mkProcess (sys_argv p) (output p ++ [o]) (cli_calls p) (world p).

Definition logger_error (msg : string) : Process -> Process :=
  emit (LogError msg).

Definition logger_warning (msg : string) : Process -> Process :=
  emit (LogWarning msg).

Definition traceback_print_exc (e : PyExc) : Process -> Process :=
  emit (PrintExc e).

(** [sys.argv += extra] *)
Definition argv_extend (extra : list PyVal) (p : Process) : Process :=
  mkProcess (sys_argv p ++ extra) (output p) (cli_calls p) (world p).

(** Entering [cli()]: the history grows, the world becomes what [cli] left. *)
Definition call_cli (p : Process) : PyResult unit * Process :=
  let '(r, w) := cli (world p) (sys_argv p) in
  (r, mkProcess (sys_argv p) (output p) (cli_calls p ++ [sys_argv p]) w).

(** What an [except] clause of [main] does: it ends [main], or it is the
    clause that executes [return main()]. *)
Inductive Handled : Type :=
| Finish (r : MainResult) (p : Process)
| Reinvoke (p : Process).

(** The body of [except (InvalidServiceError, RSDRequiredError) as e]. *)
Definition except_invalid_service_or_rsd (e : PyExc) (p : Process) : Handled :=
  let '(should_retry_over_tunneld, p1) :=
    if isinstance e RSDRequiredError then
      (true, logger_warning
               "Trying again over tunneld since RSD is required for this command" p)
    else if (bool_decide (identifier e ≠ PyNone))
            && py_in (PyStr "developer") (sys_argv p)
            && negb (py_in (PyStr "--tunnel") (sys_argv p)) then
      (true, logger_warning
               "Trying again over tunneld since it is a developer command" p)
    else (false, p) in
  if should_retry_over_tunneld then
    Reinvoke (argv_extend [PyStr "--tunnel"; identifier e] p1)
  else
    Finish Returned (logger_error INVALID_SERVICE_MESSAGE p1).

(** The [except] clauses of [main], in the order they are written; the
    first whose class matches runs, and an exception that matches none
    leaves [main]. *)
Definition except_clauses (e : PyExc) (p : Process) : Handled :=
  if isinstance e NoDeviceConnectedError then
    Finish Returned (logger_error "Device is not connected" p)
  else if isinstance e ConnectionAbortedError then
    Finish Returned (logger_error "Device was disconnected" p)
  else if isinstance e NotPairedError then
    Finish Returned (logger_error "Device is not paired" p)
  else if isinstance e UserDeniedPairingError then
    Finish Returned (logger_error "User refused to trust this computer" p)
  else if isinstance e PairingDialogResponsePendingError then
    Finish Returned (logger_error "Waiting for user dialog approval" p)
  else if isinstance e SetProhibitedError then
    Finish Returned (logger_error "lockdownd denied the access" p)
  else if isinstance e MissingValueError then
    Finish Returned (logger_error "No such value" p)
  else if isinstance e DeviceHasPasscodeSetError then
    Finish Returned
      (logger_error "Cannot enable developer-mode when passcode is set" p)
  else if isinstance e DeveloperModeError then
    Finish Returned
      (logger_error ("Failed to enable developer-mode. Error: " +:+ exc_str e) p)
  else if isinstance e ConnectionFailedToUsbmuxdError then
    Finish Returned
      (logger_error
         "Failed to connect to usbmuxd socket. Make sure it's running." p)
  else if isinstance e MessageNotSupportedError then
    Finish Returned
      (traceback_print_exc e
         (logger_error "Message not supported for this iOS version" p))
  else if isinstance e InternalError then
    Finish Returned (logger_error "Internal Error" p)
  else if isinstance e DeveloperModeIsNotEnabledError then
    Finish Returned
      (logger_error
         ("Developer Mode is disabled. You can try to enable it using: "
          +:+ "python3 -m pymobiledevice3 amfi enable-developer-mode") p)
  else if isinstance e InvalidServiceError || isinstance e RSDRequiredError then
    except_invalid_service_or_rsd e p
  else if isinstance e NoDeviceSelectedError then
    Finish Returned p
  else if isinstance e PasswordRequiredError then
    Finish Returned
      (logger_error "Device is password protected. Please unlock and retry" p)
  else if isinstance e AccessDeniedError then
    Finish Returned (logger_error access_denied_error p)
  else if isinstance e BrokenPipeError then
    Finish Returned (traceback_print_exc e p)
  else if isinstance e TunneldConnectionError then
    Finish Returned
      (logger_error
         ("Unable to connect to Tunneld. You can start one using:"
          +:+ newline +:+ "sudo python3 -m pymobiledevice3 remote tunneld") p)
  else if isinstance e DeviceNotFoundError then
    Finish Returned (logger_error ("Device not found: " +:+ py_format (udid e)) p)
  else if isinstance e NotEnoughDiskSpaceError then
    Finish Returned (logger_error "Not enough disk space" p)
  else if isinstance e DeprecationError then
    Finish Returned
      (logger_error
         "failed to query MobileGestalt, MobileGestalt deprecated (iOS >= 17.4)." p)
  else if isinstance e OSNotSupportedError then
    Finish Returned
      (logger_error
         ("Unsupported OS - " +:+ py_format (os_name e)
          +:+ ". To add support, consider contributing at "
          +:+ "https://github.com/doronz88/pymobiledevice3.") p)
  else if isinstance e FeatureNotSupportedError then
    Finish Returned
      (logger_error
         ("Missing implementation of `" +:+ py_format (feature e) +:+ "` on `"
          +:+ py_format (os_name e)
          +:+ "`. To add support, consider contributing at "
          +:+ "https://github.com/doronz88/pymobiledevice3.") p)
  else
    Finish (Propagated e) p.

(** [main()].  The recursion of [return main()] is not bounded by the
    source; [fuel] bounds the number of entries into [main], and [None]
    means the bound was reached. *)
Fixpoint main (fuel : nat) (p : Process) : option (MainResult * Process) :=
  match fuel with
  | O => None
  | S fuel' =>
      match call_cli p with
      | (Ok _, p1) => Some (Returned, p1)
      | (Raise e, p1) =>
          match except_clauses e p1 with
          | Finish r p2 => Some (r, p2)
          | Reinvoke p2 => main fuel' p2
          end
      end
  end.

(** What [sys.argv] has gained after one re-invocation per element of
    [ids]: a [--tunnel] and the failure's identifier each time. *)
Definition tunnel_pairs (ids : list PyVal) : list PyVal :=
  flat_map (fun id => [PyStr "--tunnel"; id]) ids.

(** How many times the warning of the developer-command retry was written. *)
Definition developer_retries (out : list Output) : nat :=
  length (filter
            (λ o, o = LogWarning
                        "Trying again over tunneld since it is a developer command")
            out).

(** The classes named by the [except] clauses of [main]. *)
Definition classified (c : ExcClass) : bool :=
  match c with
  | ModuleNotFoundError | AttributeError | ValueError | OtherError _ => false
  | _ => true
  end.

End WithCli.

Arguments Process : clear implicits.

End Dispatch.

(* ===================================================================== *)
(** ** A provider under the dispatcher *)
(* ===================================================================== *)

Module Resolution.
Import Lazy Dispatch.

Section WithBoth.

Context {Obj Ctx Command : Type} `{!CommandGroupHandle Obj Ctx Command}.
Variable loader : string -> option (PyModule Obj).
Context `{!ImportFailure Obj}.
Context {World : Type}.
Variable cli : World -> list PyVal -> PyResult unit * World.
Variable ade : string.

(** Resolution raising [e]: [_impg] and both methods raise [e], unwrapped,
    and store nothing in the provider. *)
Definition resolution_raises (self : Pmd3Cli Obj) (st st1 : Interp Obj)
    (e : PyExc) : Prop :=
  _impg loader self st = (Raise e, self, st1)
  /\ (forall (ctx : Ctx) (cmd_name : string),
        get_command loader self ctx cmd_name st = (Raise e, self, st1))
  /\ (forall ctx : Ctx, list_commands loader self ctx st = (Raise e, self, st1)).

(** What a failed resolution amounts to for exception [e]: [_impg] and both
    methods raise [e] and store nothing, and when [cli()] lets [e] through,
    [main] does too, having written nothing. *)
Definition fails_with (self : Pmd3Cli Obj) (st st1 : Interp Obj) (e : PyExc)
  : Prop :=
  _impg loader self st = (Raise e, self, st1)
  /\ (forall (ctx : Ctx) (cmd_name : string),
        get_command loader self ctx cmd_name st = (Raise e, self, st1))
  /\ (forall ctx : Ctx, list_commands loader self ctx st = (Raise e, self, st1))
  /\ (forall (fuel : nat) (p : Process World) (w1 : World),
        cli (world p) (sys_argv p) = (Raise e, w1) ->
        main cli ade (S fuel) p =
          Some (Propagated e,
                mkProcess (sys_argv p) (output p)
                  (cli_calls p ++ [sys_argv p]) w1)).

End WithBoth.

End Resolution.

(* ===================================================================== *)
(** ** Concrete scenarios *)
(* ===================================================================== *)

Module Scenario.
Import Dispatch.

(** The world of the scenarios: how many times [cli()] has been entered. *)
Definition argv0 : list PyVal := [PyStr "developer"; PyStr "dvt"; PyStr "ls"].

Definition start (argv : list PyVal) : Process nat := mkProcess argv [] [] 0.

Definition rsd_required (id : PyVal) : PyExc :=
  mkExc RSDRequiredError id PyNone PyNone PyNone "RSDRequiredError".

Definition invalid_service (id : PyVal) : PyExc :=
  mkExc InvalidServiceError id PyNone PyNone PyNone "InvalidServiceError".

(** A command that raises [e] the first [n] times it runs and then returns. *)
Definition cli_failing (n : nat) (e : PyExc) (w : nat) (argv : list PyVal)
  : PyResult unit * nat :=
  (if decide (w < n) then Raise e else Ok tt, S w).

(** A command that raises [e] every time it runs. *)
Definition cli_always (e : PyExc) (w : nat) (argv : list PyVal)
  : PyResult unit * nat :=
  (Raise e, S w).

(** A group module [pymobiledevice3.cli.foo] whose attribute [foo_group]
    is a plain [click.Group] with the single command ["foo"]; commands are
    stood for by their help text, the click context by [tt]. *)
Definition foo_group : Lazy.click_Group string :=
  Lazy.mk_click_Group {[ "foo" := "the foo command" ]}.

Definition foo_module : Lazy.PyModule (Lazy.click_Group string) :=
  Lazy.mkModule "pymobiledevice3.cli.foo" {[ "foo_group" := foo_group ]}.

(** The installed modules of the scenarios: only [pymobiledevice3.cli.foo]. *)
Definition loader0 (n : string) : option (Lazy.PyModule (Lazy.click_Group string)) :=
  if decide (n = "pymobiledevice3.cli.foo") then Some foo_module else None.

(** The import system of the scenarios when a module is not installed: the
    packages [pymobiledevice3] and [pymobiledevice3.cli] are, so the failure
    is a [ModuleNotFoundError] that names the module asked for, and the two
    packages are in [sys.modules] afterwards (loaded on the way unless they
    were there). *)
Definition package (n : string) : Lazy.PyModule (Lazy.click_Group string) :=
  Lazy.mkModule n ∅.

#[global] Instance scenario_import_failure
  : Lazy.ImportFailure (Lazy.click_Group string) :=
  fun n st =>
    (plain_exc ModuleNotFoundError ("No module named '" +:+ n +:+ "'"),
     Lazy.mkInterp
       (Lazy.sys_modules st
        ∪ {[ "pymobiledevice3" := package "pymobiledevice3";
             "pymobiledevice3.cli" := package "pymobiledevice3.cli" ]})
       (Lazy.loads st
        ++ filter (λ pkg, Lazy.sys_modules st !! pkg = None)
                  ["pymobiledevice3"; "pymobiledevice3.cli"])
       (Lazy.stdout st)).

(** The interpreter before anything was imported. *)
Definition interp0 : Lazy.Interp (Lazy.click_Group string) :=
  Lazy.mkInterp ∅ [] [].

Definition foo_provider : Lazy.Pmd3Cli (Lazy.click_Group string) :=
  Lazy.mkPmd3Cli "pymobiledevice3.cli.foo:foo_group" "foo" "foo options" None.

(** [foo_provider] and the interpreter once the provider has resolved. *)
Definition foo_resolved : Lazy.Pmd3Cli (Lazy.click_Group string) :=
  Lazy.mkPmd3Cli "pymobiledevice3.cli.foo:foo_group" "foo" "foo options"
    (Some foo_group).

Definition interp_foo : Lazy.Interp (Lazy.click_Group string) :=
  Lazy.mkInterp {[ "pymobiledevice3.cli.foo" := foo_module ]}
    ["pymobiledevice3.cli.foo"]
    [Lazy.PrintLocator "pymobiledevice3.cli.foo" "foo_group";
     Lazy.PrintElapsed; Lazy.PrintElapsed].

(** A provider whose module is not installed, and one whose module lacks
    the attribute. *)
Definition nope_provider : Lazy.Pmd3Cli (Lazy.click_Group string) :=
  Lazy.mkPmd3Cli "pymobiledevice3.cli.nope:nope" "nope" "nope options" None.

Definition no_attr_provider : Lazy.Pmd3Cli (Lazy.click_Group string) :=
  Lazy.mkPmd3Cli "pymobiledevice3.cli.foo:bar_group" "bar" "bar options" None.

(** A second provider on the module of [foo_provider], had that module a
    second group; and the module so extended. *)
Definition foo_module2 : Lazy.PyModule (Lazy.click_Group string) :=
  Lazy.mkModule "pymobiledevice3.cli.foo"
    {[ "foo_group" := foo_group; "foo_cli" := Lazy.mk_click_Group ∅ ]}.

Definition loader2 (n : string) : option (Lazy.PyModule (Lazy.click_Group string)) :=
  if decide (n = "pymobiledevice3.cli.foo") then Some foo_module2 else None.

Definition foo_cli_provider : Lazy.Pmd3Cli (Lazy.click_Group string) :=
  Lazy.mkPmd3Cli "pymobiledevice3.cli.foo:foo_cli" "foo-cli" "foo cli" None.

(** A provider whose locator has no colon. *)
Definition no_colon_provider : Lazy.Pmd3Cli (Lazy.click_Group string) :=
  Lazy.mkPmd3Cli "pymobiledevice3.cli.foo" "foo" "foo options" None.

(** The installed modules when only [pymobiledevice3.cli.afc] is. *)
Definition afc_module : Lazy.PyModule (Lazy.click_Group string) :=
  Lazy.mkModule "pymobiledevice3.cli.afc" {[ "afc" := Lazy.mk_click_Group ∅ ]}.

Definition loader_afc (n : string) : option (Lazy.PyModule (Lazy.click_Group string)) :=
  if decide (n = "pymobiledevice3.cli.afc") then Some afc_module else None.

(** [get_os_utils().access_denied_error], as some platform words it. *)
Definition ade0 : string := "This command requires root privileges.".

End Scenario.

(* ===================================================================== *)
(** ** The dispatcher: properties *)
(* ===================================================================== *)

Section DispatchFacts.
Import Dispatch.

Context {World : Type}.
Variable cli : World -> list PyVal -> PyResult unit * World.
Variable ade : string.

(** One entry into [main] when [cli()] raises: the clauses decide. *)
Lemma main_raise (fuel : nat) (p : Process World) (e : PyExc) (w1 : World) :
  cli (world p) (sys_argv p) = (Raise e, w1) ->
  main cli ade (S fuel) p =
    match except_clauses ade e
            (mkProcess (sys_argv p) (output p) (cli_calls p ++ [sys_argv p]) w1) with
    | Finish r p2 => Some (r, p2)
    | Reinvoke p2 => main cli ade fuel p2
    end.
Proof.
  intros Hcli. simpl. unfold call_cli. rewrite Hcli. reflexivity.
Qed.

(** One entry into [main] when [cli()] returns. *)
Lemma main_ok (fuel : nat) (p : Process World) (w1 : World) :
  cli (world p) (sys_argv p) = (Ok tt, w1) ->
  main cli ade (S fuel) p =
    Some (Returned,
          mkProcess (sys_argv p) (output p) (cli_calls p ++ [sys_argv p]) w1).
Proof.
  intros Hcli. simpl. unfold call_cli. rewrite Hcli. reflexivity.
Qed.

(** The clause reached by an [RSDRequiredError]. *)
Lemma except_rsd (e : PyExc) (p : Process World) :
  exc_class e = RSDRequiredError ->
  except_clauses ade e p =
    Reinvoke (mkProcess (sys_argv p ++ [PyStr "--tunnel"; identifier e])
                (output p ++
                   [LogWarning
                      "Trying again over tunneld since RSD is required for this command"])
                (cli_calls p) (world p)).
Proof.
  intros Hc. unfold except_clauses, except_invalid_service_or_rsd, isinstance.
  rewrite Hc. reflexivity.
Qed.

(** The clause reached by an [InvalidServiceError], on the value of the
    test of the [elif]. *)
Lemma except_invalid_service (e : PyExc) (p : Process World) :
  exc_class e = InvalidServiceError ->
  except_clauses ade e p =
    if bool_decide (identifier e ≠ PyNone)
       && py_in (PyStr "developer") (sys_argv p)
       && negb (py_in (PyStr "--tunnel") (sys_argv p))
    then
      Reinvoke (mkProcess (sys_argv p ++ [PyStr "--tunnel"; identifier e])
                  (output p ++
                     [LogWarning
                        "Trying again over tunneld since it is a developer command"])
                  (cli_calls p) (world p))
    else
      Finish Returned
        (mkProcess (sys_argv p)
           (output p ++ [LogError INVALID_SERVICE_MESSAGE])
           (cli_calls p) (world p)).
Proof.
  intros Hc. unfold except_clauses, except_invalid_service_or_rsd, isinstance.
  rewrite Hc. simpl.
  destruct (bool_decide (identifier e ≠ PyNone)
            && py_in (PyStr "developer") (sys_argv p)
            && negb (py_in (PyStr "--tunnel") (sys_argv p))); reflexivity.
Qed.

(** Every clause other than the one for [InvalidServiceError] and
    [RSDRequiredError] ends [main]. *)
Lemma except_other_finishes (e : PyExc) (p : Process World) :
  exc_class e ≠ InvalidServiceError ->
  exc_class e ≠ RSDRequiredError ->
  exists r p2, except_clauses ade e p = Finish r p2
               /\ sys_argv p2 = sys_argv p
               /\ cli_calls p2 = cli_calls p.
Proof.
  intros H1 H2. unfold except_clauses, isinstance.
  destruct (exc_class e); try congruence; simpl; eauto.
Qed.

(** [py_in] sees an element appended at the end. *)
Lemma py_in_app (x : PyVal) (l1 l2 : list PyVal) :
  py_in x (l1 ++ l2) = py_in x l1 || py_in x l2.
Proof. unfold py_in. apply existsb_app. Qed.

Lemma tunnel_in_rewritten (argv : list PyVal) (id : PyVal) :
  py_in (PyStr "--tunnel") (argv ++ [PyStr "--tunnel"; id]) = true.
Proof.
  rewrite py_in_app. apply orb_true_iff. right. reflexivity.
Qed.

(** With [--tunnel] in [sys.argv], only an [RSDRequiredError] re-invokes. *)
Lemma except_with_tunnel_finishes (e : PyExc) (p : Process World) :
  py_in (PyStr "--tunnel") (sys_argv p) = true ->
  exc_class e ≠ RSDRequiredError ->
  exists r p2, except_clauses ade e p = Finish r p2
               /\ sys_argv p2 = sys_argv p
               /\ cli_calls p2 = cli_calls p.
Proof.
  intros Hin Hrsd.
  destruct (decide (exc_class e = InvalidServiceError)) as [His|His].
  - rewrite except_invalid_service by assumption.
    rewrite Hin, andb_false_r. eauto.
  - apply except_other_finishes; assumption.
Qed.


(** Whatever clause runs, the history of [cli()] entries is kept, and
    [sys.argv] at most grows by one [--tunnel], identifier pair. *)
Lemma except_clauses_frame (e : PyExc) (p : Process World) :
  match except_clauses ade e p with
  | Finish _ p2 => sys_argv p2 = sys_argv p /\ cli_calls p2 = cli_calls p
  | Reinvoke p2 =>
      sys_argv p2 = sys_argv p ++ [PyStr "--tunnel"; identifier e]
      /\ cli_calls p2 = cli_calls p
  end.
Proof.
  destruct (decide (exc_class e = RSDRequiredError)) as [Hr|Hr].
  { rewrite except_rsd by assumption. simpl. auto. }
  destruct (decide (exc_class e = InvalidServiceError)) as [Hi|Hi].
  { rewrite except_invalid_service by assumption.
    destruct (_ && _ && _); simpl; auto. }
  destruct (except_other_finishes e p Hi Hr) as (r & p2 & -> & Ha & Hc). auto.
Qed.

(** A run of [main] that ends has entered [cli()] first with the argument
    list it started from, and has kept the earlier history. *)
Lemma main_calls_first (fuel : nat) (p : Process World)
      (r : MainResult) (p' : Process World) :
  main cli ade fuel p = Some (r, p') ->
  exists rest, cli_calls p' = cli_calls p ++ sys_argv p :: rest.
Proof.
  revert p. induction fuel as [|fuel IH]; intros p Hrun; [discriminate|].
  destruct (cli (world p) (sys_argv p)) as [[[]|e] w1] eqn:Hcli.
  - rewrite (main_ok _ _ _ Hcli) in Hrun. injection Hrun as <- <-.
    exists []. reflexivity.
  - rewrite (main_raise _ _ _ _ Hcli) in Hrun.
    pose proof (except_clauses_frame e
      (mkProcess (sys_argv p) (output p) (cli_calls p ++ [sys_argv p]) w1)) as Hf.
    destruct (except_clauses ade e _) as [r2 p2|p2]; simpl in Hf.
    + injection Hrun as <- <-. destruct Hf as [_ ->]. exists []. reflexivity.
    + destruct Hf as [Ha Hc]. apply IH in Hrun as [rest Hrest].
      rewrite Hrest, Hc, <- app_assoc. simpl. eauto.
Qed.

(** Two entries into [main] when the first ends in a re-invocation: the
    second entry calls [cli()] on the process the clause left, and goes on
    from its outcome. *)
Lemma main_reinvoked (fuel : nat) (p p2 : Process World) (e : PyExc)
      (w1 : World) (r2 : PyResult unit) (w2 : World) :
  cli (world p) (sys_argv p) = (Raise e, w1) ->
  except_clauses ade e
    (mkProcess (sys_argv p) (output p) (cli_calls p ++ [sys_argv p]) w1)
  = Reinvoke p2 ->
  cli (world p2) (sys_argv p2) = (r2, w2) ->
  let p3 := mkProcess (sys_argv p2) (output p2)
              (cli_calls p2 ++ [sys_argv p2]) w2 in
  main cli ade (S (S fuel)) p =
       match r2 with
       | Ok _ => Some (Returned, p3)
       | Raise e2 =>
           match except_clauses ade e2 p3 with
           | Finish r p4 => Some (r, p4)
           | Reinvoke p4 => main cli ade fuel p4
           end
       end.
Proof.
  intros Hcli Hre Hcli2 p3.
  rewrite (main_raise _ _ _ _ Hcli), Hre.
  destruct r2 as [[]|e2].
  - rewrite (main_ok _ _ _ Hcli2). reflexivity.
  - rewrite (main_raise _ _ _ _ Hcli2). reflexivity.
Qed.

(** C1 (as amended).  After a retry has rewritten [sys.argv] and re-invoked
    [main], there is no further re-invocation provided the re-invoked command
    does not raise [RSDRequiredError]: [cli()] has then been entered exactly
    twice, the second time with the flag and the identifier appended.  (A
    recurring [RSDRequiredError] does re-invoke again, see
    [C10_rsd_required_always_retries].) *)
Theorem C1_single_retry_unless_rsd_recurs
    (fuel : nat) (p : Process World) (e1 : PyExc) (w1 : World)
    (r2 : PyResult unit) (w2 : World) :
  cli (world p) (sys_argv p) = (Raise e1, w1) ->
  (exc_class e1 = RSDRequiredError
   \/ (exc_class e1 = InvalidServiceError
       /\ identifier e1 ≠ PyNone
       /\ py_in (PyStr "developer") (sys_argv p) = true
       /\ py_in (PyStr "--tunnel") (sys_argv p) = false)) ->
  cli w1 (sys_argv p ++ [PyStr "--tunnel"; identifier e1]) = (r2, w2) ->
  (forall e2, r2 = Raise e2 -> exc_class e2 ≠ RSDRequiredError) ->
  exists r p',
    main cli ade (S (S fuel)) p = Some (r, p')
    /\ cli_calls p' =
         cli_calls p
         ++ [sys_argv p; sys_argv p ++ [PyStr "--tunnel"; identifier e1]]
    /\ sys_argv p' = sys_argv p ++ [PyStr "--tunnel"; identifier e1]
    /\ world p' = w2.
Proof.
  intros Hcli1 Hretry Hcli2 Hnot_rsd.
  rewrite (main_raise _ _ _ _ Hcli1).
  set (p1 := mkProcess (sys_argv p) (output p) (cli_calls p ++ [sys_argv p]) w1).
  assert (exists out,
            except_clauses ade e1 p1 =
              Reinvoke (mkProcess (sys_argv p ++ [PyStr "--tunnel"; identifier e1])
                          out (cli_calls p ++ [sys_argv p]) w1)) as [out ->].
  { destruct Hretry as [Hr | (Hi & Hid & Hdev & Htun)].
    - rewrite except_rsd by assumption. eauto.
    - rewrite except_invalid_service by assumption. simpl.
      rewrite Hdev, Htun, (bool_decide_eq_true_2 _ Hid). simpl. eauto. }
  set (p2 := mkProcess _ out _ w1).
  destruct r2 as [[]|e2].
  - rewrite (main_ok _ p2 w2) by exact Hcli2.
    eexists _, _. split; [reflexivity|]. simpl.
    rewrite <- app_assoc. auto.
  - rewrite (main_raise _ p2 e2 w2) by exact Hcli2.
    destruct (except_with_tunnel_finishes e2
                (mkProcess (sys_argv p2) (output p2)
                   (cli_calls p2 ++ [sys_argv p2]) w2))
      as (r & p3 & Hfin & Ha & Hc).
    { apply tunnel_in_rewritten. }
    { apply Hnot_rsd. reflexivity. }
    rewrite Hfin. exists r, p3. split; [reflexivity|].
    rewrite Ha, Hc. simpl. rewrite <- app_assoc. split; [reflexivity|].
    split; [reflexivity|].
    (* the clauses never touch the world *)
    clear -Hfin. unfold except_clauses, except_invalid_service_or_rsd in Hfin.
    repeat match type of Hfin with
           | (if ?b then _ else _) = _ => destruct b
           | (let '(_, _) := if ?b then _ else _ in _) = _ => destruct b
           end; simpl in Hfin; try discriminate;
      injection Hfin as _ <-; reflexivity.
Qed.

(** C3 (as amended).  For an [InvalidServiceError], [main] re-invokes
    itself exactly when the failure's identifier is present
    ([e.identifier is not None]; an empty string is present), ['developer']
    is in [sys.argv] and ['--tunnel'] is not: it then logs the warning,
    appends the flag and the identifier, enters [cli()] again with the
    rewritten list and goes on from its outcome.  Otherwise it logs
    [INVALID_SERVICE_MESSAGE] as an error and returns, with no
    re-invocation. *)
Theorem C3_invalid_service_retry_iff
    (fuel : nat) (p : Process World) (e : PyExc) (w1 : World) :
  cli (world p) (sys_argv p) = (Raise e, w1) ->
  exc_class e = InvalidServiceError ->
  let cond := identifier e ≠ PyNone
              /\ py_in (PyStr "developer") (sys_argv p) = true
              /\ py_in (PyStr "--tunnel") (sys_argv p) = false in
  let p1 := mkProcess (sys_argv p) (output p) (cli_calls p ++ [sys_argv p]) w1 in
  let argv' := sys_argv p ++ [PyStr "--tunnel"; identifier e] in
  let out' :=
    output p ++
      [LogWarning "Trying again over tunneld since it is a developer command"] in
  ((exists p2, except_clauses ade e p1 = Reinvoke p2) <-> cond)
  /\ (cond ->
      main cli ade (S fuel) p =
        main cli ade fuel
          (mkProcess argv' out' (cli_calls p ++ [sys_argv p]) w1))
  /\ (¬ cond ->
      main cli ade (S fuel) p =
        Some (Returned,
              mkProcess (sys_argv p)
                (output p ++ [LogError INVALID_SERVICE_MESSAGE])
                (cli_calls p ++ [sys_argv p]) w1))
  /\ (cond ->
      forall (r2 : PyResult unit) (w2 : World),
        cli w1 argv' = (r2, w2) ->
        let p3 := mkProcess argv' out' (cli_calls p ++ [sys_argv p; argv']) w2 in
        main cli ade (S (S fuel)) p =
       match r2 with
         | Ok _ => Some (Returned, p3)
         | Raise e2 =>
             match except_clauses ade e2 p3 with
             | Finish r p4 => Some (r, p4)
             | Reinvoke p4 => main cli ade fuel p4
             end
         end).
Proof.
  intros Hcli Hclass cond p1 argv' out'.
  assert (cond ->
          except_clauses ade e p1 =
            Reinvoke (mkProcess argv' out' (cli_calls p ++ [sys_argv p]) w1))
    as Hretry.
  { intros (Hid & Hdev & Htun).
    rewrite (except_invalid_service e p1 Hclass). simpl.
    rewrite Hdev, Htun, (bool_decide_eq_true_2 _ Hid). reflexivity. }
  assert (¬ cond ->
          except_clauses ade e p1 =
            Finish Returned
              (mkProcess (sys_argv p)
                 (output p ++ [LogError INVALID_SERVICE_MESSAGE])
                 (cli_calls p ++ [sys_argv p]) w1)) as Hstatic.
  { intros Hncond. rewrite (except_invalid_service e p1 Hclass). simpl.
    destruct (bool_decide (identifier e ≠ PyNone)
              && py_in (PyStr "developer") (sys_argv p)
              && negb (py_in (PyStr "--tunnel") (sys_argv p))) eqn:Htest;
      [|reflexivity].
    exfalso. apply Hncond.
    apply andb_true_iff in Htest as [Htest Htun].
    apply andb_true_iff in Htest as [Hid Hdev].
    apply bool_decide_eq_true_1 in Hid. apply negb_true_iff in Htun.
    unfold cond. auto. }
  assert (cond \/ ¬ cond) as Hdec.
  { unfold cond. destruct (decide (identifier e = PyNone)) as [Hnone|Hsome];
      [right; intros (Hid & _); contradiction|].
    destruct (py_in (PyStr "developer") (sys_argv p));
      [|right; intros (_ & Hdev & _); discriminate].
    destruct (py_in (PyStr "--tunnel") (sys_argv p));
      [right; intros (_ & _ & Htun); discriminate|].
    left. auto. }
  split; [|split; [|split]].
  - split.
    + intros [p2 Hp2]. destruct Hdec as [Hc|Hn]; [exact Hc|].
      rewrite (Hstatic Hn) in Hp2. discriminate.
    + intros Hc. rewrite (Hretry Hc). eauto.
  - intros Hc. rewrite (main_raise _ _ _ _ Hcli). fold p1.
    rewrite (Hretry Hc). reflexivity.
  - intros Hn. rewrite (main_raise _ _ _ _ Hcli). fold p1.
    rewrite (Hstatic Hn). reflexivity.
  - intros Hc r2 w2 Hcli2 p3.
    rewrite (main_reinvoked fuel p _ e w1 r2 w2 Hcli (Hretry Hc) Hcli2).
    simpl. unfold p3. rewrite <- app_assoc. reflexivity.
Qed.

(** C6.  With [sys.argv = ['developer', 'dvt', 'ls']] and an
    [InvalidServiceError] whose identifier is ['UDID1'], [main] re-invokes
    itself with [sys.argv = ['developer', 'dvt', 'ls', '--tunnel', 'UDID1']]:
    that is the argument list the re-invoked [cli()] is entered with, and
    [main] goes on from the outcome of that call. *)
Theorem C6_reinvocation_argv
    (fuel : nat) (e : PyExc) (w w1 : World)
    (out : list Output) (calls : list (list PyVal))
    (r2 : PyResult unit) (w2 : World) :
  exc_class e = InvalidServiceError ->
  identifier e = PyStr "UDID1" ->
  cli w [PyStr "developer"; PyStr "dvt"; PyStr "ls"] = (Raise e, w1) ->
  let p0 := mkProcess [PyStr "developer"; PyStr "dvt"; PyStr "ls"] out calls w in
  let rewritten :=
    [PyStr "developer"; PyStr "dvt"; PyStr "ls"; PyStr "--tunnel"; PyStr "UDID1"] in
  let out' :=
    out ++ [LogWarning
              "Trying again over tunneld since it is a developer command"] in
  cli w1 rewritten = (r2, w2) ->
  let p3 :=
    mkProcess rewritten out'
      (calls ++ [[PyStr "developer"; PyStr "dvt"; PyStr "ls"]; rewritten]) w2 in
  main cli ade (S fuel) p0 =
    main cli ade fuel
      (mkProcess rewritten out'
         (calls ++ [[PyStr "developer"; PyStr "dvt"; PyStr "ls"]]) w1)
  /\ (forall r p', main cli ade (S fuel) p0 = Some (r, p') ->
        cli_calls p' !! S (length calls) = Some rewritten)
  /\ main cli ade (S (S fuel)) p0 =
       match r2 with
       | Ok _ => Some (Returned, p3)
       | Raise e2 =>
           match except_clauses ade e2 p3 with
           | Finish r p4 => Some (r, p4)
           | Reinvoke p4 => main cli ade fuel p4
           end
       end.
Proof.
  intros Hclass Hid Hcli p0 rewritten out' Hcli2 p3.
  assert (except_clauses ade e
            (mkProcess (sys_argv p0) (output p0)
               (cli_calls p0 ++ [sys_argv p0]) w1)
          = Reinvoke
              (mkProcess rewritten out'
                 (calls ++ [[PyStr "developer"; PyStr "dvt"; PyStr "ls"]]) w1))
    as Hre.
  { rewrite except_invalid_service by assumption. simpl.
    rewrite Hid. reflexivity. }
  assert (main cli ade (S fuel) p0 =
          main cli ade fuel
            (mkProcess rewritten out'
               (calls ++ [[PyStr "developer"; PyStr "dvt"; PyStr "ls"]]) w1))
    as Hstep.
  { rewrite (main_raise fuel p0 e w1) by exact Hcli. rewrite Hre. reflexivity. }
  split; [exact Hstep|]. split.
  - intros r p' Hrun. rewrite Hstep in Hrun.
    apply main_calls_first in Hrun as [rest ->]. simpl.
    rewrite <- app_assoc. simpl.
    rewrite lookup_app_r by (simpl; lia).
    replace (S (length calls) - length calls) with 1 by lia. reflexivity.
  - rewrite (main_reinvoked fuel p0 _ e w1 r2 w2 Hcli Hre Hcli2).
    simpl. unfold p3. rewrite <- app_assoc. reflexivity.
Qed.

(** An exception of a class that no clause names falls through all of
    them. *)
Lemma except_unclassified (e : PyExc) (p : Process World) :
  classified (exc_class e) = false ->
  except_clauses ade e p = Finish (Propagated e) p.
Proof.
  intros Hunc. unfold except_clauses, isinstance.
  destruct (exc_class e); try discriminate Hunc; reflexivity.
Qed.

(** Conversely, an exception of a class that some clause names does not
    leave [main] from that entry: the clause returns or re-invokes. *)
Lemma except_classified (e : PyExc) (p : Process World) :
  classified (exc_class e) = true ->
  (exists p2, except_clauses ade e p = Finish Returned p2)
  \/ (exists p2, except_clauses ade e p = Reinvoke p2).
Proof.
  intros Hcl.
  destruct (decide (exc_class e = RSDRequiredError)) as [Hr|Hr].
  { rewrite except_rsd by assumption. eauto. }
  destruct (decide (exc_class e = InvalidServiceError)) as [Hi|Hi].
  { rewrite except_invalid_service by assumption.
    destruct (_ && _ && _); eauto. }
  left. unfold except_clauses, isinstance.
  destruct (exc_class e); try discriminate Hcl; try congruence; simpl; eauto.
Qed.

(** C7.  A failure whose class is none of those named by the [except]
    clauses is not caught: it leaves [main], and [main] has written nothing
    and has not touched [sys.argv]. *)
Theorem C7_unclassified_propagates
    (fuel : nat) (p : Process World) (e : PyExc) (w1 : World) :
  classified (exc_class e) = false ->
  cli (world p) (sys_argv p) = (Raise e, w1) ->
  main cli ade (S fuel) p =
    Some (Propagated e,
          mkProcess (sys_argv p) (output p) (cli_calls p ++ [sys_argv p]) w1).
Proof.
  intros Hunc Hcli. rewrite (main_raise _ _ _ _ Hcli).
  rewrite except_unclassified by exact Hunc. reflexivity.
Qed.

(** C8.  On a [NoDeviceSelectedError], [main] returns normally: nothing is
    written, [sys.argv] is untouched and [cli()] is not entered again. *)
Theorem C8_no_device_selected_silent
    (fuel : nat) (p : Process World) (e : PyExc) (w1 : World) :
  exc_class e = NoDeviceSelectedError ->
  cli (world p) (sys_argv p) = (Raise e, w1) ->
  main cli ade (S fuel) p =
    Some (Returned,
          mkProcess (sys_argv p) (output p) (cli_calls p ++ [sys_argv p]) w1).
Proof.
  intros Hclass Hcli. rewrite (main_raise _ _ _ _ Hcli).
  unfold except_clauses, isinstance. rewrite Hclass. reflexivity.
Qed.

(** C9 (as amended).  The rewritten argument list lives in the process-global
    [sys.argv], which is extended in place and never restored: when [main]
    ends, [sys.argv] is the list it started from followed by one
    [--tunnel], identifier pair for each re-invocation that took place. *)
Theorem C9_argv_keeps_appended_pairs
    (fuel : nat) (p : Process World) (r : MainResult) (p' : Process World) :
  main cli ade fuel p = Some (r, p') ->
  exists ids,
    sys_argv p' = sys_argv p ++ tunnel_pairs ids
    /\ length (cli_calls p') = length (cli_calls p) + 1 + length ids.
Proof.
  revert p. induction fuel as [|fuel IH]; intros p Hrun; [discriminate|].
  destruct (cli (world p) (sys_argv p)) as [[[]|e] w1] eqn:Hcli.
  - rewrite (main_ok _ _ _ Hcli) in Hrun. injection Hrun as <- <-.
    exists []. simpl. rewrite app_nil_r, length_app. simpl. split; [done|lia].
  - rewrite (main_raise _ _ _ _ Hcli) in Hrun.
    pose proof (except_clauses_frame e
      (mkProcess (sys_argv p) (output p) (cli_calls p ++ [sys_argv p]) w1)) as Hf.
    destruct (except_clauses ade e _) as [r2 p2|p2]; simpl in Hf.
    + injection Hrun as <- <-. destruct Hf as [-> ->].
      exists []. simpl. rewrite app_nil_r, length_app. simpl. split; [done|lia].
    + destruct Hf as [Ha Hc]. apply IH in Hrun as (ids & Hargv & Hlen).
      exists (identifier e :: ids). simpl.
      rewrite Hargv, Ha, Hlen, Hc, <- app_assoc, length_app. simpl.
      split; [done|lia].
Qed.

(** C10.  On an [RSDRequiredError], [main] always appends
    [['--tunnel', e.identifier]] to [sys.argv] and re-invokes itself,
    whatever [sys.argv] already contains and whatever the identifier is
    ([None] included): [cli()] is entered again with the extended list, and
    [main] goes on from the outcome of that call. *)
Theorem C10_rsd_required_always_retries
    (fuel : nat) (p : Process World) (e : PyExc) (w1 : World)
    (r2 : PyResult unit) (w2 : World) :
  exc_class e = RSDRequiredError ->
  cli (world p) (sys_argv p) = (Raise e, w1) ->
  let argv' := sys_argv p ++ [PyStr "--tunnel"; identifier e] in
  let out' :=
    output p ++
      [LogWarning
         "Trying again over tunneld since RSD is required for this command"] in
  cli w1 argv' = (r2, w2) ->
  let p3 := mkProcess argv' out' (cli_calls p ++ [sys_argv p; argv']) w2 in
  main cli ade (S fuel) p =
    main cli ade fuel (mkProcess argv' out' (cli_calls p ++ [sys_argv p]) w1)
  /\ main cli ade (S (S fuel)) p =
       match r2 with
       | Ok _ => Some (Returned, p3)
       | Raise e2 =>
           match except_clauses ade e2 p3 with
           | Finish r p4 => Some (r, p4)
           | Reinvoke p4 => main cli ade fuel p4
           end
       end.
Proof.
  intros Hclass Hcli argv' out' Hcli2 p3.
  pose proof (except_rsd e
                (mkProcess (sys_argv p) (output p)
                   (cli_calls p ++ [sys_argv p]) w1) Hclass) as Hre.
  simpl in Hre. split.
  - rewrite (main_raise _ _ _ _ Hcli), Hre. reflexivity.
  - rewrite (main_reinvoked fuel p _ e w1 r2 w2 Hcli Hre Hcli2).
    simpl. unfold p3. rewrite <- app_assoc. reflexivity.
Qed.

End DispatchFacts.

(* ===================================================================== *)
(** ** The dispatcher on the scenarios *)
(* ===================================================================== *)

Section DispatchScenarios.
Import Dispatch Scenario.

(** C1, the claim as stated fails: a command that raises
    [RSDRequiredError('ABCD-1234')] on its first two runs is re-invoked
    twice, each time with a further pair appended. *)
Lemma C1_counterexample_rsd_recurs :
  main (cli_failing 2 (rsd_required (PyStr "ABCD-1234"))) ade0 3 (start argv0) =
    Some (Returned,
          mkProcess
            (argv0 ++ [PyStr "--tunnel"; PyStr "ABCD-1234";
                       PyStr "--tunnel"; PyStr "ABCD-1234"])
            [LogWarning
               "Trying again over tunneld since RSD is required for this command";
             LogWarning
               "Trying again over tunneld since RSD is required for this command"]
            [argv0;
             argv0 ++ [PyStr "--tunnel"; PyStr "ABCD-1234"];
             argv0 ++ [PyStr "--tunnel"; PyStr "ABCD-1234";
                       PyStr "--tunnel"; PyStr "ABCD-1234"]]
            3).
Proof. vm_compute. reflexivity. Qed.

Lemma C1_single_retry_witness :
  let cli := cli_failing 2 (invalid_service (PyStr "UDID1")) in
  exists r p',
    main cli ade0 2 (start argv0) = Some (r, p')
    /\ cli_calls p' = [argv0; argv0 ++ [PyStr "--tunnel"; PyStr "UDID1"]]
    /\ sys_argv p' = argv0 ++ [PyStr "--tunnel"; PyStr "UDID1"]
    /\ world p' = 2.
Proof.
  intros cli.
  apply (C1_single_retry_unless_rsd_recurs cli ade0 0 (start argv0)
           (invalid_service (PyStr "UDID1")) 1
           (Raise (invalid_service (PyStr "UDID1"))) 2).
  - reflexivity.
  - right. split; [reflexivity|]. split; [discriminate|]. split; reflexivity.
  - reflexivity.
  - intros e2 [= <-]. discriminate.
Defined.

(** C3, the claim as stated fails: the identifier is the empty string, not
    a non-empty one, and the retry takes place all the same (the test of
    line 285 is [e.identifier is not None]). *)
Lemma C3_counterexample_empty_identifier :
  main (cli_failing 1 (invalid_service (PyStr EmptyString))) ade0 2 (start argv0) =
    Some (Returned,
          mkProcess (argv0 ++ [PyStr "--tunnel"; PyStr EmptyString])
            [LogWarning "Trying again over tunneld since it is a developer command"]
            [argv0; argv0 ++ [PyStr "--tunnel"; PyStr EmptyString]] 2).
Proof. vm_compute. reflexivity. Qed.

Lemma C3_witness_retry :
  let e := invalid_service (PyStr "UDID1") in
  main (cli_always e) ade0 2 (start argv0) =
    Some (Returned,
          mkProcess (argv0 ++ [PyStr "--tunnel"; PyStr "UDID1"])
            [LogWarning "Trying again over tunneld since it is a developer command";
             LogError INVALID_SERVICE_MESSAGE]
            [argv0; argv0 ++ [PyStr "--tunnel"; PyStr "UDID1"]] 2).
Proof.
  intros e.
  destruct (C3_invalid_service_retry_iff (cli_always e) ade0 0 (start argv0) e 1
              eq_refl eq_refl) as (_ & _ & _ & Hsecond).
  assert (identifier e ≠ PyNone
          /\ py_in (PyStr "developer") (sys_argv (start argv0)) = true
          /\ py_in (PyStr "--tunnel") (sys_argv (start argv0)) = false) as Hcond.
  { split; [discriminate|]. split; reflexivity. }
  exact (Hsecond Hcond (Raise e) 2 eq_refl).
Defined.

(** Without the ['developer'] token the static message is logged and
    [cli()] is not entered again. *)
Example invalid_service_without_developer_token :
  let e := invalid_service (PyStr "UDID1") in
  main (cli_always e) ade0 5 (start [PyStr "lockdown"; PyStr "info"]) =
    Some (Returned,
          mkProcess [PyStr "lockdown"; PyStr "info"]
            [LogError INVALID_SERVICE_MESSAGE]
            [[PyStr "lockdown"; PyStr "info"]] 1).
Proof. vm_compute. reflexivity. Qed.

Lemma C6_witness :
  let e := invalid_service (PyStr "UDID1") in
  main (cli_failing 1 e) ade0 2 (start argv0) =
    Some (Returned,
          mkProcess
            [PyStr "developer"; PyStr "dvt"; PyStr "ls";
             PyStr "--tunnel"; PyStr "UDID1"]
            [LogWarning "Trying again over tunneld since it is a developer command"]
            [argv0; [PyStr "developer"; PyStr "dvt"; PyStr "ls";
                     PyStr "--tunnel"; PyStr "UDID1"]] 2).
Proof.
  intros e.
  destruct (C6_reinvocation_argv (cli_failing 1 e) ade0 0 e 0 1 [] [] (Ok tt) 2
              eq_refl eq_refl eq_refl eq_refl) as (_ & _ & Hsecond).
  exact Hsecond.
Defined.

Lemma C7_witness :
  let e := plain_exc (OtherError "KeyError") "'udid'" in
  main (cli_always e) ade0 1 (start argv0) =
    Some (Propagated e, mkProcess argv0 [] [argv0] 1).
Proof.
  intros e.
  apply (C7_unclassified_propagates (cli_always e) ade0 0 (start argv0) e 1
           eq_refl eq_refl).
Defined.

Lemma C8_witness :
  let e := plain_exc NoDeviceSelectedError "NoDeviceSelectedError" in
  main (cli_always e) ade0 1 (start argv0) =
    Some (Returned, mkProcess argv0 [] [argv0] 1).
Proof.
  intros e.
  apply (C8_no_device_selected_silent (cli_always e) ade0 0 (start argv0) e 1
           eq_refl eq_refl).
Defined.

(** C9, the claim as stated fails: after the one retry has completed and
    [main] has returned, [sys.argv] still ends with the flag and the
    identifier. *)
Lemma C9_counterexample_argv_retained :
  main (cli_failing 1 (invalid_service (PyStr "UDID1"))) ade0 2 (start argv0) =
    Some (Returned,
          mkProcess
            [PyStr "developer"; PyStr "dvt"; PyStr "ls";
             PyStr "--tunnel"; PyStr "UDID1"]
            [LogWarning "Trying again over tunneld since it is a developer command"]
            [argv0; argv0 ++ [PyStr "--tunnel"; PyStr "UDID1"]]
            2)
  /\ [PyStr "developer"; PyStr "dvt"; PyStr "ls";
      PyStr "--tunnel"; PyStr "UDID1"] ≠ argv0.
Proof. split; [vm_compute; reflexivity | discriminate]. Qed.

Lemma C9_witness :
  let run := main (cli_failing 1 (invalid_service (PyStr "UDID1"))) ade0 2
               (start argv0) in
  let p' := mkProcess (argv0 ++ [PyStr "--tunnel"; PyStr "UDID1"])
              [LogWarning "Trying again over tunneld since it is a developer command"]
              [argv0; argv0 ++ [PyStr "--tunnel"; PyStr "UDID1"]] 2 in
  run = Some (Returned, p')
  /\ exists ids,
       sys_argv p' = argv0 ++ tunnel_pairs ids
       /\ length (cli_calls p') = 0 + 1 + length ids.
Proof.
  intros run p'. split; [reflexivity|].
  apply (C9_argv_keeps_appended_pairs
           (cli_failing 1 (invalid_service (PyStr "UDID1"))) ade0 2
           (start argv0) Returned p' eq_refl).
Defined.

Lemma C10_witness :
  let e := rsd_required PyNone in
  let argv := [PyStr "developer"; PyStr "--tunnel"; PyStr "UDID1"] in
  main (cli_failing 1 e) ade0 2 (start argv) =
    Some (Returned,
          mkProcess (argv ++ [PyStr "--tunnel"; PyNone])
            [LogWarning
               "Trying again over tunneld since RSD is required for this command"]
            [argv; argv ++ [PyStr "--tunnel"; PyNone]] 2).
Proof.
  intros e argv.
  destruct (C10_rsd_required_always_retries (cli_failing 1 e) ade0 0
              (start argv) e 1 (Ok tt) 2 eq_refl eq_refl eq_refl)
    as (_ & Hsecond).
  exact Hsecond.
Defined.

End DispatchScenarios.

(* ===================================================================== *)
(** ** The lazy providers: properties *)
(* ===================================================================== *)

Section LazyFacts.
Import Lazy.

Context {Obj Ctx Command : Type} `{!CommandGroupHandle Obj Ctx Command}.
Variable loader : string -> option (PyModule Obj).
Context `{!ImportFailure Obj}.

(** [str.split(':', 1)] of a locator [module:name] whose module part has
    no colon gives back the two parts. *)
Lemma py_split1_locator (module name : string) :
  py_split1 colon module = [module] ->
  py_split1 colon (module +:+ String colon name) = [module; name].
Proof.
  induction module as [|c rest IH]; intros Hnone; simpl.
  - reflexivity.
  - simpl in Hnone. destruct (bool_decide (c = colon)); [discriminate|].
    destruct (py_split1 colon rest) as [|hd tl] eqn:Hrest.
    + injection Hnone as <-. discriminate Hrest.
    + injection Hnone as -> ->. rewrite IH by reflexivity. reflexivity.
Qed.

(** A successful [import_module]: the module found, entered in
    [sys.modules]; one load unless it was there already. *)
Lemma import_module_found (st : Interp Obj) (n : string) (m : PyModule Obj) :
  find_module loader st n = Some m ->
  import_module loader n st =
    (Ok m, mkInterp (<[n := m]> (sys_modules st)) (loads st ++ load_of st n)
                    (stdout st)).
Proof.
  unfold find_module, import_module, load_of. intros Hfind.
  destruct (sys_modules st !! n) as [m'|] eqn:Hlook.
  - injection Hfind as ->. rewrite insert_id by exact Hlook.
    rewrite app_nil_r. destruct st; reflexivity.
  - rewrite Hfind. reflexivity.
Qed.

(** A failing [import_module]: the exception and the state are the import
    system's. *)
Lemma import_module_missing (st : Interp Obj) (n : string) :
  find_module loader st n = None ->
  import_module loader n st =
    (Raise (fst (import_failure n st)), snd (import_failure n st)).
Proof.
  unfold find_module, import_module. intros Hfind.
  destruct (sys_modules st !! n); [discriminate|]. rewrite Hfind.
  destruct (import_failure n st). reflexivity.
Qed.

(** Once a module is in [sys.modules], importing it changes nothing. *)
Lemma import_module_cached (st : Interp Obj) (n : string) (m : PyModule Obj) :
  sys_modules st !! n = Some m ->
  import_module loader n st = (Ok m, st).
Proof. unfold import_module. intros ->. reflexivity. Qed.

(** The body of [_impg] when the locator resolves. *)
Lemma _impg_body_ok (self : Pmd3Cli Obj) (module name : string)
      (m : PyModule Obj) (o : Obj) (st : Interp Obj) :
  py_split1 colon (_import_name self) = [module; name] ->
  find_module loader st module = Some m ->
  mod_dict m !! name = Some o ->
  _impg_body loader self st =
    (Ok o,
     mkInterp (<[module := m]> (sys_modules st)) (loads st ++ load_of st module)
       (stdout st ++ [PrintLocator module name; PrintElapsed; PrintElapsed])).
Proof.
  intros Hsplit Hfind Hattr.
  unfold _impg_body, mbind, M_bind. rewrite Hsplit. simpl.
  rewrite (import_module_found _ module m) by exact Hfind. simpl.
  unfold getattr. rewrite Hattr. simpl.
  rewrite (import_module_cached _ module m) by (simpl; apply lookup_insert_eq).
  simpl. rewrite Hattr. simpl. rewrite <- !app_assoc. reflexivity.
Qed.

(** [_impg] with a filled slot: the stored object, nothing else happens. *)
Lemma _impg_cached (self : Pmd3Cli Obj) (o : Obj) (st : Interp Obj) :
  _impg_slot self = Some o ->
  _impg loader self st = (Ok o, self, st).
Proof. unfold _impg. intros ->. reflexivity. Qed.

(** Both methods of a resolved provider answer what the stored object
    answers, and leave the provider and the interpreter as they are. *)
Lemma perform_cached (c : Call) (self : Pmd3Cli Obj) (o : Obj) (st : Interp Obj) :
  _impg_slot self = Some o ->
  perform loader c self st = (delegate o c, self, st).
Proof.
  intros Hslot. destruct c; simpl;
    unfold get_command, list_commands; rewrite (_impg_cached _ o) by exact Hslot;
    reflexivity.
Qed.

Lemma perform_all_cached (cs : list Call) (self : Pmd3Cli Obj) (o : Obj)
      (st : Interp Obj) :
  _impg_slot self = Some o ->
  perform_all loader cs self st = (map (delegate o) cs, self, st).
Proof.
  intros Hslot. induction cs as [|c cs IH]; [reflexivity|].
  simpl. rewrite (perform_cached c self o st Hslot), IH. reflexivity.
Qed.

(** Loads of a state extended at the end. *)
Lemma load_count_app (sm : gmap string (PyModule Obj)) (l extra : list string)
      (out : list Printed) (n : string) :
  load_count (mkInterp sm (l ++ extra) out) n =
    length (filter (λ x, x = n) l) + length (filter (λ x, x = n) extra).
Proof. unfold load_count. simpl. rewrite filter_app, length_app. reflexivity. Qed.

(** A successful import keeps the process in a state where every module
    has been loaded once. *)
Lemma loaded_once_import (st : Interp Obj) (n : string) (m : PyModule Obj)
      (out : list Printed) :
  loaded_once loader st ->
  find_module loader st n = Some m ->
  let st' := mkInterp (<[n := m]> (sys_modules st)) (loads st ++ load_of st n) out in
  load_count st' n = 1 /\ loaded_once loader st'.
Proof.
  intros Hinv Hfind st'.
  assert (loader n = Some m /\ load_count st' n = 1) as [Hld Hcount].
  { pose proof (Hinv n) as Hn. unfold find_module, load_of in *. subst st'.
    rewrite load_count_app.
    destruct (sys_modules st !! n) as [m'|] eqn:Hlook.
    - injection Hfind as ->. destruct Hn as [Hl Hc]. split; [exact Hl|].
      unfold load_count in Hc. simpl. lia.
    - split; [exact Hfind|]. unfold load_count in Hn.
      rewrite Hn by congruence.
      rewrite filter_cons_True by reflexivity. reflexivity. }
  split; [exact Hcount|].
  intros k. destruct (decide (k = n)) as [->|Hne].
  - simpl. rewrite lookup_insert_eq. auto.
  - pose proof (Hinv k) as Hk. simpl. rewrite lookup_insert_ne by congruence.
    assert (load_count st' k = load_count st k) as Hsame.
    { subst st'. rewrite load_count_app. unfold load_count, load_of.
      destruct (sys_modules st !! n); [simpl; lia|].
      rewrite filter_cons_False by congruence. simpl. lia. }
    fold st'. rewrite Hsame. exact Hk.
Qed.

(** The body of [_impg] when the import fails: the locator has been
    printed, and the import system's exception is raised. *)
Lemma _impg_body_no_module (self : Pmd3Cli Obj) (module name : string)
      (st st1 : Interp Obj) (e : PyExc) :
  py_split1 colon (_import_name self) = [module; name] ->
  find_module loader st module = None ->
  import_failure module
    (mkInterp (sys_modules st) (loads st)
       (stdout st ++ [PrintLocator module name])) = (e, st1) ->
  _impg_body loader self st = (Raise e, st1).
Proof.
  intros Hsplit Hfind Hfail.
  unfold _impg_body, mbind, M_bind. rewrite Hsplit. simpl.
  rewrite (import_module_missing _ module) by exact Hfind.
  rewrite Hfail. reflexivity.
Qed.

(** The body of [_impg] when the module lacks the attribute. *)
Lemma _impg_body_no_attr (self : Pmd3Cli Obj) (module name : string)
      (m : PyModule Obj) (st : Interp Obj) :
  py_split1 colon (_import_name self) = [module; name] ->
  find_module loader st module = Some m ->
  mod_dict m !! name = None ->
  _impg_body loader self st =
    (Raise (plain_exc AttributeError
              ("module '" +:+ mod_name m +:+ "' has no attribute '"
               +:+ name +:+ "'")),
     mkInterp (<[module := m]> (sys_modules st)) (loads st ++ load_of st module)
       (stdout st ++ [PrintLocator module name])).
Proof.
  intros Hsplit Hfind Hattr.
  unfold _impg_body, mbind, M_bind. rewrite Hsplit. simpl.
  rewrite (import_module_found _ module m) by exact Hfind. simpl.
  unfold getattr. rewrite Hattr. reflexivity.
Qed.

(** When the body of [_impg] raises, so do [_impg] and both methods, and
    the slot stays empty. *)
Lemma raise_through (self : Pmd3Cli Obj) (st st1 : Interp Obj) (e : PyExc)
      (ctx : Ctx) (cmd_name : string) :
  _impg_slot self = None ->
  _impg_body loader self st = (Raise e, st1) ->
  _impg loader self st = (Raise e, self, st1)
  /\ get_command loader self ctx cmd_name st = (Raise e, self, st1)
  /\ list_commands loader self ctx st = (Raise e, self, st1).
Proof.
  intros Hslot Hbody.
  assert (_impg loader self st = (Raise e, self, st1)) as Himpg.
  { unfold _impg. rewrite Hslot, Hbody. reflexivity. }
  unfold get_command, list_commands. rewrite Himpg. auto.
Qed.

(** Both methods hand the call to whatever [_impg] yields. *)
Lemma get_command_delegates (self self1 : Pmd3Cli Obj) (g : Obj)
      (st st1 : Interp Obj) (ctx : Ctx) (cmd_name : string) :
  _impg loader self st = (Ok g, self1, st1) ->
  get_command loader self ctx cmd_name st = (obj_get_command g ctx cmd_name, self1, st1).
Proof. intros Himpg. unfold get_command. rewrite Himpg. reflexivity. Qed.

(** C4.  Constructing a [Pmd3Cli] leaves the interpreter as it is (nothing
    is imported, the slot is empty).  The first call of [get_command] or
    [list_commands] splits the locator, imports the module, reads the
    attribute and stores it; every later call on the provider is answered by
    that same stored object and changes nothing.  In all these calls
    together the module is loaded once (not at all when [sys.modules] had it
    already), so that in a process where every imported module was loaded
    once, it has been loaded exactly once. *)
Theorem C4_lazy_resolution_cached
    (import_name kw_name kw_help module name : string)
    (m : PyModule Obj) (o : Obj) (st : Interp Obj)
    (c : Call) (cs : list Call) :
  py_split1 colon import_name = [module; name] ->
  find_module loader st module = Some m ->
  mod_dict m !! name = Some o ->
  let fresh := mkPmd3Cli import_name kw_name kw_help None in
  let resolved := mkPmd3Cli import_name kw_name kw_help (Some o) in
  let st' :=
    mkInterp (<[module := m]> (sys_modules st)) (loads st ++ load_of st module)
      (stdout st ++ [PrintLocator module name; PrintElapsed; PrintElapsed]) in
  Pmd3Cli_init import_name kw_name kw_help st = (Ok fresh, st)
  /\ perform loader c fresh st = (delegate o c, resolved, st')
  /\ perform_all loader cs resolved st' = (map (delegate o) cs, resolved, st')
  /\ perform_all loader (c :: cs) fresh st
     = (map (delegate o) (c :: cs), resolved, st')
  /\ (loaded_once loader st ->
      load_count st' module = 1 /\ loaded_once loader st').
Proof.
  intros Hsplit Hfind Hattr fresh resolved st'.
  assert (perform loader c fresh st = (delegate o c, resolved, st')) as Hfirst.
  { assert (_impg loader fresh st = (Ok o, resolved, st')) as Himpg.
    { unfold _impg. simpl.
      rewrite (_impg_body_ok fresh module name m o st Hsplit Hfind Hattr).
      reflexivity. }
    destruct c; simpl; unfold get_command, list_commands; rewrite Himpg;
      reflexivity. }
  assert (perform_all loader cs resolved st'
          = (map (delegate o) cs, resolved, st')) as Hrest.
  { apply perform_all_cached. reflexivity. }
  split; [reflexivity|]. split; [exact Hfirst|]. split; [exact Hrest|].
  split.
  - change (perform_all loader (c :: cs) fresh st)
      with (let '(a, self1, st1) := perform loader c fresh st in
            let '(answers, self2, st2) := perform_all loader cs self1 st1 in
            (a :: answers, self2, st2)).
    rewrite Hfirst, Hrest. reflexivity.
  - intros Hinv. apply loaded_once_import; assumption.
Qed.

End LazyFacts.

Section ClickGroups.
Import Lazy.

Context {Ctx Command : Type}.
Variable loader : string -> option (PyModule (click_Group Command)).
Context `{!ImportFailure (click_Group Command)}.

(** C2 (as amended).  [Pmd3Cli.get_command] returns what the resolved
    implementation's own command table holds under the requested name: for a
    [click.Group], the command when the name is in the table and [None]
    otherwise, however many commands the group has. *)
Theorem C2_get_command_is_table_lookup
    (self self1 : Pmd3Cli (click_Group Command)) (g : click_Group Command)
    (st st1 : Interp (click_Group Command)) (ctx : Ctx) (cmd_name : string) :
  _impg loader self st = (Ok g, self1, st1) ->
  get_command loader self ctx cmd_name st
    = (Ok (commands g !! cmd_name), self1, st1)
  /\ (commands g !! cmd_name = None ->
      get_command loader self ctx cmd_name st = (Ok None, self1, st1)).
Proof.
  intros Himpg.
  assert (get_command loader self ctx cmd_name st
          = (Ok (commands g !! cmd_name), self1, st1)) as Hget.
  { rewrite (get_command_delegates loader self self1 g st st1 ctx cmd_name Himpg).
    reflexivity. }
  split; [exact Hget|]. intros Hnone. rewrite Hget, Hnone. reflexivity.
Qed.

End ClickGroups.

(* ===================================================================== *)
(** ** A locator that does not resolve *)
(* ===================================================================== *)

Section ResolutionFailure.
Import Lazy Dispatch Resolution.

Context {Obj Ctx Command : Type} `{!CommandGroupHandle Obj Ctx Command}.
Variable loader : string -> option (PyModule Obj).
Context `{!ImportFailure Obj}.
Context {World : Type}.
Variable cli : World -> list PyVal -> PyResult unit * World.
Variable ade : string.

Lemma fails_with_intro (self : Pmd3Cli Obj) (st st1 : Interp Obj) (e : PyExc) :
  _impg_slot self = None ->
  classified (exc_class e) = false ->
  _impg_body loader self st = (Raise e, st1) ->
  fails_with loader cli ade self st st1 e.
Proof.
  intros Hslot Hunc Hbody. unfold fails_with.
  split; [|split; [|split]].
  - unfold _impg. rewrite Hslot, Hbody. reflexivity.
  - intros ctx cmd_name.
    apply (raise_through loader self st st1 e ctx cmd_name Hslot Hbody).
  - intros ctx.
    apply (raise_through loader self st st1 e ctx EmptyString Hslot Hbody).
  - intros fuel p w1 Hcli. rewrite (main_raise cli ade _ _ _ _ Hcli).
    rewrite except_unclassified by exact Hunc. reflexivity.
Qed.

(** C5 (as amended).  When the module of the locator cannot be loaded,
    resolution raises the exception that [importlib.import_module] raised,
    as it is; when the module lacks the attribute it raises the
    [AttributeError] of [getattr], which names the module and the attribute.
    Neither is wrapped in an error of its own that carries the locator.
    Nothing is stored in the provider and both methods let the exception
    through; [main] lets it through as well whenever its class is none of
    those its clauses name (as for [AttributeError]): the invocation ends
    with that exception. *)
Theorem C5_resolution_failure_propagates
    (self : Pmd3Cli Obj) (module name : string) (st : Interp Obj) :
  _impg_slot self = None ->
  py_split1 colon (_import_name self) = [module; name] ->
  (find_module loader st module = None ->
   forall (e : PyExc) (st1 : Interp Obj),
     import_failure module
       (mkInterp (sys_modules st) (loads st)
          (stdout st ++ [PrintLocator module name])) = (e, st1) ->
     resolution_raises loader self st st1 e
     /\ (classified (exc_class e) = false ->
         forall (fuel : nat) (p : Process World) (w1 : World),
           cli (world p) (sys_argv p) = (Raise e, w1) ->
           main cli ade (S fuel) p =
             Some (Propagated e,
                   mkProcess (sys_argv p) (output p)
                     (cli_calls p ++ [sys_argv p]) w1)))
  /\ (forall m : PyModule Obj,
        find_module loader st module = Some m ->
        mod_dict m !! name = None ->
        fails_with loader cli ade self st
          (mkInterp (<[module := m]> (sys_modules st))
             (loads st ++ load_of st module)
             (stdout st ++ [PrintLocator module name]))
          (plain_exc AttributeError
             ("module '" +:+ mod_name m +:+ "' has no attribute '"
              +:+ name +:+ "'"))).
Proof.
  intros Hslot Hsplit. split.
  - intros Hfind e st1 Hfail.
    pose proof (_impg_body_no_module loader self module name st st1 e
                  Hsplit Hfind Hfail) as Hbody.
    split.
    + unfold resolution_raises. split; [|split].
      * unfold _impg. rewrite Hslot, Hbody. reflexivity.
      * intros ctx cmd_name.
        apply (raise_through loader self st st1 e ctx cmd_name Hslot Hbody).
      * intros ctx.
        apply (raise_through loader self st st1 e ctx EmptyString Hslot Hbody).
    + intros Hunc fuel p w1 Hcli. rewrite (main_raise cli ade _ _ _ _ Hcli).
      rewrite except_unclassified by exact Hunc. reflexivity.
  - intros m Hfind Hattr. apply fails_with_intro; [exact Hslot|reflexivity|].
    apply _impg_body_no_attr; assumption.
Qed.

End ResolutionFailure.

(* ===================================================================== *)
(** ** The providers on the scenarios *)
(* ===================================================================== *)

Section LazyScenarios.
Import Lazy Dispatch Resolution Scenario.

(** The module-level loop builds the 22 providers of [CLI_GROUPS], all with
    an empty slot, and leaves the interpreter as it was. *)
Lemma create_groups_imports_nothing (st : Interp (click_Group string)) :
  exists providers,
    create_groups CLI_GROUPS st = (Ok providers, st)
    /\ map fst providers = map fst CLI_GROUPS
    /\ Forall (λ kp, _impg_slot (snd kp) = None) providers.
Proof.
  eexists. split; [reflexivity|]. split; [reflexivity|].
  repeat constructor.
Qed.

(** C2, the claim as stated fails: the group resolved by [foo_provider] has
    the single command ["foo"], and [get_command(ctx, "bar")] is [None]. *)
Lemma C2_counterexample_no_fallback :
  size (commands foo_group) = 1
  /\ commands foo_group !! "foo" = Some "the foo command"
  /\ get_command loader0 foo_provider tt "bar" interp0
     = (Ok None, foo_resolved, interp_foo).
Proof. vm_compute. auto. Qed.

Lemma C2_witness :
  get_command loader0 foo_provider tt "foo" interp0
  = (Ok (Some "the foo command"), foo_resolved, interp_foo).
Proof.
  apply (C2_get_command_is_table_lookup (Ctx := unit) loader0 foo_provider
           foo_resolved foo_group interp0 interp_foo tt "foo" eq_refl).
Defined.

Lemma C4_witness :
  perform_all loader0
    [CallGetCommand tt "foo"; CallListCommands tt; CallGetCommand tt "bar"]
    foo_provider interp0
  = ([GotCommand (Ok (Some "the foo command")); GotList (Ok ["foo"]);
      GotCommand (Ok None)],
     foo_resolved, interp_foo)
  /\ load_count interp_foo "pymobiledevice3.cli.foo" = 1.
Proof.
  destruct (C4_lazy_resolution_cached (Ctx := unit) (Command := string) loader0
              "pymobiledevice3.cli.foo:foo_group" "foo" "foo options"
              "pymobiledevice3.cli.foo" "foo_group" foo_module foo_group interp0
              (CallGetCommand tt "foo")
              [CallListCommands tt; CallGetCommand tt "bar"]
              eq_refl eq_refl eq_refl)
    as (_ & _ & _ & Hall & Honce).
  split; [exact Hall|].
  apply Honce. intros n. simpl. rewrite lookup_empty. intros _. reflexivity.
Defined.

(** C5, the claim as stated fails: the exception of a module that is not
    installed is the import system's [ModuleNotFoundError], which names the
    module; it is not a [GroupLoadError] and does not carry the locator. *)
Lemma C5_counterexample_module_not_found :
  let e := plain_exc ModuleNotFoundError
             "No module named 'pymobiledevice3.cli.nope'" in
  get_command loader0 nope_provider tt "ls" interp0
  = (Raise e, nope_provider,
     mkInterp
       {[ "pymobiledevice3" := package "pymobiledevice3";
          "pymobiledevice3.cli" := package "pymobiledevice3.cli" ]}
       ["pymobiledevice3"; "pymobiledevice3.cli"]
       [PrintLocator "pymobiledevice3.cli.nope" "nope"])
  /\ exc_class e ≠ OtherError "GroupLoadError"
  /\ exc_str e ≠ _import_name nope_provider.
Proof. split; [vm_compute; reflexivity|]. split; discriminate. Qed.

Lemma C5_witness :
  let e := plain_exc ModuleNotFoundError
             "No module named 'pymobiledevice3.cli.nope'" in
  let st1 :=
    mkInterp
      {[ "pymobiledevice3" := package "pymobiledevice3";
         "pymobiledevice3.cli" := package "pymobiledevice3.cli" ]}
      ["pymobiledevice3"; "pymobiledevice3.cli"]
      [PrintLocator "pymobiledevice3.cli.nope" "nope"] in
  (resolution_raises (Ctx := unit) (Command := string) loader0
     nope_provider interp0 st1 e
   /\ main (cli_always e) ade0 1 (start argv0)
      = Some (Propagated e, mkProcess argv0 [] [argv0] 1))
  /\ fails_with (Ctx := unit) (Command := string) loader0
       (cli_always (plain_exc AttributeError
          "module 'pymobiledevice3.cli.foo' has no attribute 'bar_group'")) ade0
       no_attr_provider interp0
       (mkInterp {[ "pymobiledevice3.cli.foo" := foo_module ]}
          ["pymobiledevice3.cli.foo"]
          [PrintLocator "pymobiledevice3.cli.foo" "bar_group"])
       (plain_exc AttributeError
          "module 'pymobiledevice3.cli.foo' has no attribute 'bar_group'").
Proof.
  intros e st1. split.
  - destruct (C5_resolution_failure_propagates (Ctx := unit) (Command := string)
                loader0 (cli_always e) ade0 nope_provider
                "pymobiledevice3.cli.nope" "nope" interp0 eq_refl eq_refl)
      as [Hmissing _].
    destruct (Hmissing eq_refl e st1) as [Hraises Hmain].
    { vm_compute. reflexivity. }
    split; [exact Hraises|].
    apply (Hmain eq_refl 0 (start argv0) 1). reflexivity.
  - apply (C5_resolution_failure_propagates (Ctx := unit) (Command := string)
             loader0 _ ade0 no_attr_provider
             "pymobiledevice3.cli.foo" "bar_group" interp0 eq_refl eq_refl
           ).
    + reflexivity.
    + reflexivity.
Defined.

End LazyScenarios.

(* ===================================================================== *)
(** ** Whole runs of the dispatcher *)
(* ===================================================================== *)

Section DispatchRuns.
Import Dispatch.

Context {World : Type}.
Variable cli : World -> list PyVal -> PyResult unit * World.
Variable ade : string.

(** What each clause writes: a re-invoking clause one warning; a clause that
    ends [main] nothing for [NoDeviceSelectedError] and for an uncaught
    exception, the traceback alone for [BrokenPipeError], an error line and
    the traceback for [MessageNotSupportedError], one error line otherwise. *)
Lemma except_clauses_output (e : PyExc) (p : Process World) :
  match except_clauses ade e p with
  | Reinvoke p2 => exists m, output p2 = output p ++ [LogWarning m]
  | Finish r p2 =>
      (r = Propagated e /\ output p2 = output p
       /\ classified (exc_class e) = false)
      \/ (r = Returned /\ classified (exc_class e) = true
          /\ ((output p2 = output p /\ exc_class e = NoDeviceSelectedError)
              \/ (output p2 = output p ++ [PrintExc e]
                  /\ exc_class e = BrokenPipeError)
              \/ (exists m, output p2 = output p ++ [LogError m; PrintExc e]
                            /\ exc_class e = MessageNotSupportedError)
              \/ (exists m, output p2 = output p ++ [LogError m]
                            /\ exc_class e ≠ NoDeviceSelectedError
                            /\ exc_class e ≠ BrokenPipeError
                            /\ exc_class e ≠ MessageNotSupportedError)))
  end.
Proof.
  destruct (decide (exc_class e = RSDRequiredError)) as [Hr|Hr].
  { rewrite except_rsd by assumption. simpl. eauto. }
  destruct (decide (exc_class e = InvalidServiceError)) as [Hi|Hi].
  { rewrite except_invalid_service by assumption.
    destruct (_ && _ && _); simpl.
    - eexists. reflexivity.
    - right. rewrite Hi. split; [reflexivity|]. split; [reflexivity|].
      do 3 right. eexists. split; [reflexivity|]. repeat split; discriminate. }
  unfold except_clauses, isinstance.
  destruct (exc_class e) eqn:Hc; try congruence; simpl;
    solve
      [ left; repeat split; reflexivity
      | right; split; [done|]; split; [done|]; left; split; reflexivity
      | right; split; [done|]; split; [done|]; right; left; split; reflexivity
      | right; split; [done|]; split; [done|]; do 2 right; left;
        eexists; split; [rewrite <- app_assoc; reflexivity | reflexivity]
      | right; split; [done|]; split; [done|]; do 3 right;
        eexists; split; [reflexivity|]; repeat split; discriminate ].
Qed.

(** X2.  When the command never raises [RSDRequiredError], [main] ends
    after entering [cli()] at most twice, whatever the command does. *)
Theorem main_terminates_without_rsd (fuel : nat) (p : Process World) :
  (forall w argv e w', cli w argv = (Raise e, w') ->
                       exc_class e ≠ RSDRequiredError) ->
  exists r p',
    main cli ade (S (S fuel)) p = Some (r, p')
    /\ length (cli_calls p') <= length (cli_calls p) + 2.
Proof.
  intros Hno_rsd.
  destruct (cli (world p) (sys_argv p)) as [[[]|e1] w1] eqn:Hcli.
  { rewrite (main_ok _ _ _ _ _ Hcli). eexists _, _. split; [reflexivity|].
    simpl. rewrite length_app. simpl. lia. }
  rewrite (main_raise _ _ _ _ _ _ Hcli).
  set (p1 := mkProcess (sys_argv p) (output p) (cli_calls p ++ [sys_argv p]) w1).
  pose proof (except_clauses_frame ade e1 p1) as Hf.
  destruct (except_clauses ade e1 p1) as [r p2|p2].
  { destruct Hf as [_ Hc]. eexists _, _. split; [reflexivity|].
    rewrite Hc. simpl. rewrite length_app. simpl. lia. }
  destruct Hf as [Ha Hc].
  assert (length (cli_calls p2) = length (cli_calls p) + 1) as Hlen.
  { rewrite Hc. simpl. rewrite length_app. simpl. lia. }
  destruct (cli (world p2) (sys_argv p2)) as [[[]|e2] w2] eqn:Hcli2.
  { rewrite (main_ok _ _ _ _ _ Hcli2). eexists _, _. split; [reflexivity|].
    simpl. rewrite length_app. simpl. lia. }
  rewrite (main_raise _ _ _ _ _ _ Hcli2).
  destruct (except_with_tunnel_finishes ade e2
              (mkProcess (sys_argv p2) (output p2)
                 (cli_calls p2 ++ [sys_argv p2]) w2))
    as (r & p3 & -> & _ & Hc3).
  { simpl. rewrite Ha. apply tunnel_in_rewritten. }
  { eapply Hno_rsd. exact Hcli2. }
  exists r, p3. split; [reflexivity|].
  rewrite Hc3. simpl. rewrite length_app. simpl. lia.
Qed.

(** X4.  The argument lists [cli()] is entered with, in order: the one
    [main] started from, then that list with one more [--tunnel],
    identifier pair at each re-invocation; the last of them is what
    [sys.argv] is left as. *)
Theorem main_cli_calls_trace
    (fuel : nat) (p : Process World) (r : MainResult) (p' : Process World) :
  main cli ade fuel p = Some (r, p') ->
  exists ids,
    sys_argv p' = sys_argv p ++ tunnel_pairs ids
    /\ cli_calls p' =
         cli_calls p
         ++ map (λ k, sys_argv p ++ tunnel_pairs (take k ids))
                (seq 0 (S (length ids))).
Proof.
  revert p. induction fuel as [|fuel IH]; intros p Hrun; [discriminate|].
  destruct (cli (world p) (sys_argv p)) as [[[]|e] w1] eqn:Hcli.
  - rewrite (main_ok _ _ _ _ _ Hcli) in Hrun. injection Hrun as <- <-.
    exists []. simpl. rewrite !app_nil_r. done.
  - rewrite (main_raise _ _ _ _ _ _ Hcli) in Hrun.
    pose proof (except_clauses_frame ade e
      (mkProcess (sys_argv p) (output p) (cli_calls p ++ [sys_argv p]) w1)) as Hf.
    destruct (except_clauses ade e _) as [r2 p2|p2]; simpl in Hf.
    + injection Hrun as <- <-. destruct Hf as [-> ->].
      exists []. simpl. rewrite !app_nil_r. done.
    + destruct Hf as [Ha Hc]. apply IH in Hrun as (ids & Hargv & Hcalls).
      exists (identifier e :: ids). split.
      * rewrite Hargv, Ha, <- app_assoc. reflexivity.
      * rewrite Hcalls, Hc, Ha, <- app_assoc.
        f_equal.
        change (seq 0 (S (length (identifier e :: ids))))
          with (0 :: seq 1 (S (length ids))).
        rewrite <- seq_shift, map_cons, map_map.
        change (tunnel_pairs (take 0 (identifier e :: ids))) with (@nil PyVal).
        rewrite app_nil_r. apply (f_equal (cons (sys_argv p))).
        apply map_ext. intros k. rewrite <- app_assoc. reflexivity.
Qed.

(** X5.  In a run that ends with [main] returning or with the command's
    exception leaving it (a run the recursion of [return main()] does not
    cut short), every re-invocation is announced by exactly one warning, and
    after the warnings [main] writes at most two more entries, none a
    warning. *)
Theorem main_one_warning_per_retry
    (fuel : nat) (p : Process World) (r : MainResult) (p' : Process World) :
  main cli ade fuel p = Some (r, p') ->
  exists ws tail,
    output p' = output p ++ ws ++ tail
    /\ Forall (λ o, exists m, o = LogWarning m) ws
    /\ length (cli_calls p') = length (cli_calls p) + 1 + length ws
    /\ Forall (λ o, forall m, o ≠ LogWarning m) tail
    /\ length tail <= 2.
Proof.
  revert p. induction fuel as [|fuel IH]; intros p Hrun; [discriminate|].
  destruct (cli (world p) (sys_argv p)) as [[[]|e] w1] eqn:Hcli.
  - rewrite (main_ok _ _ _ _ _ Hcli) in Hrun. injection Hrun as <- <-.
    exists [], []. simpl. rewrite app_nil_r, length_app. simpl.
    repeat split; try constructor; lia.
  - rewrite (main_raise _ _ _ _ _ _ Hcli) in Hrun.
    set (p1 := mkProcess (sys_argv p) (output p) (cli_calls p ++ [sys_argv p]) w1)
      in Hrun.
    pose proof (except_clauses_output e p1) as Hout.
    pose proof (except_clauses_frame ade e p1) as Hf.
    assert (length (cli_calls p1) = length (cli_calls p) + 1) as Hlen1.
    { simpl. rewrite length_app. simpl. lia. }
    destruct (except_clauses ade e p1) as [r2 p2|p2].
    + injection Hrun as <- <-. destruct Hf as [_ Hc]. exists [].
      destruct Hout as [(_ & Ho & _) | (_ & _ & [(Ho & _) | [(Ho & _) |
                        [(m & Ho & _) | (m & Ho & _)]]])];
        [ exists [] | exists [] | exists [PrintExc e]
        | exists [LogError m; PrintExc e] | exists [LogError m] ];
        rewrite Ho, Hc, Hlen1; simpl; rewrite ?app_nil_r;
        (split; [reflexivity|]); (split; [constructor|]);
        (split; [lia|]); (split; [|lia]);
        repeat constructor; discriminate.
    + destruct Hout as [m Ho]. destruct Hf as [_ Hc].
      apply IH in Hrun as (ws & tail & Hout' & Hws & Hlen & Htail & Hshort).
      exists (LogWarning m :: ws), tail.
      rewrite Hout', Ho, Hlen, Hc, Hlen1. simpl. rewrite <- app_assoc. simpl.
      split; [reflexivity|]. split; [constructor; eauto|].
      split; [lia|]. split; assumption.
Qed.

(** X6.  [NoDeviceSelectedError] is the only failure after which [main]
    returns at once having written nothing at all. *)
Theorem only_no_device_selected_is_silent
    (fuel : nat) (p : Process World) (e : PyExc) (w1 : World) :
  cli (world p) (sys_argv p) = (Raise e, w1) ->
  (main cli ade (S fuel) p =
     Some (Returned,
           mkProcess (sys_argv p) (output p) (cli_calls p ++ [sys_argv p]) w1)
   <-> exc_class e = NoDeviceSelectedError).
Proof.
  intros Hcli. rewrite (main_raise _ _ _ _ _ _ Hcli).
  set (p1 := mkProcess (sys_argv p) (output p) (cli_calls p ++ [sys_argv p]) w1).
  split.
  - intros Hrun.
    pose proof (except_clauses_output e p1) as Hout.
    pose proof (except_clauses_frame ade e p1) as Hf.
    destruct (except_clauses ade e p1) as [r2 p2|p2].
    + injection Hrun as -> ->.
      destruct Hout as [([=] & _) | (_ & _ & [(_ & Hc) | [(Ho & _) |
                        [(m & Ho & _) | (m & Ho & _)]]])];
        [ exact Hc | exfalso .. ];
        apply (f_equal length) in Ho; rewrite length_app in Ho; simpl in Ho; lia.
    + exfalso. destruct Hf as [_ Hc].
      apply main_calls_first in Hrun as [rest Hrest].
      rewrite Hc in Hrest. apply (f_equal length) in Hrest.
      simpl in Hrest. rewrite !length_app in Hrest. simpl in Hrest. lia.
  - intros Hclass. unfold except_clauses, isinstance. rewrite Hclass. reflexivity.
Qed.

(** X7.  [main] prints a traceback only for a [MessageNotSupportedError] or
    a [BrokenPipeError]. *)
Theorem traceback_only_for_two_kinds
    (fuel : nat) (p : Process World) (r : MainResult) (p' : Process World)
    (x : PyExc) :
  main cli ade fuel p = Some (r, p') ->
  PrintExc x ∈ output p' ->
  PrintExc x ∈ output p
  \/ exc_class x = MessageNotSupportedError
  \/ exc_class x = BrokenPipeError.
Proof.
  revert p. induction fuel as [|fuel IH]; intros p Hrun Hin; [discriminate|].
  destruct (cli (world p) (sys_argv p)) as [[[]|e] w1] eqn:Hcli.
  - rewrite (main_ok _ _ _ _ _ Hcli) in Hrun. injection Hrun as <- <-.
    left. exact Hin.
  - rewrite (main_raise _ _ _ _ _ _ Hcli) in Hrun.
    set (p1 := mkProcess (sys_argv p) (output p) (cli_calls p ++ [sys_argv p]) w1)
      in Hrun.
    pose proof (except_clauses_output e p1) as Hout.
    destruct (except_clauses ade e p1) as [r2 p2|p2].
    + injection Hrun as <- <-.
      destruct Hout as [(_ & Ho & _) | (_ & _ & [(Ho & _) | [(Ho & Hc) |
                        [(m & Ho & Hc) | (m & Ho & _)]]])];
        rewrite Ho in Hin; simpl in Hin;
        repeat (apply elem_of_app in Hin as [Hin|Hin]
                || apply elem_of_cons in Hin as [Hin|Hin]
                || apply elem_of_nil in Hin as []);
        try (left; exact Hin); try discriminate Hin;
        injection Hin as ->; auto.
    + destruct Hout as [m Ho].
      destruct (IH p2 Hrun Hin) as [Hin2 | Hclass]; [|auto].
      rewrite Ho in Hin2. simpl in Hin2.
      apply elem_of_app in Hin2 as [Hin2|Hin2]; [left; exact Hin2|].
      apply elem_of_cons in Hin2 as [Hin2|Hin2]; [discriminate|].
      apply elem_of_nil in Hin2 as [].
Qed.

(** Entries other than the developer-command warning do not count. *)
Lemma developer_retries_app (out extra : list Output) :
  developer_retries (out ++ extra)
  = developer_retries out + developer_retries extra.
Proof. unfold developer_retries. rewrite filter_app, length_app. reflexivity. Qed.

(** With [--tunnel] in [sys.argv], no clause writes the developer-command
    warning, and [--tunnel] stays in [sys.argv]. *)
Lemma except_clauses_with_tunnel (e : PyExc) (p : Process World) :
  py_in (PyStr "--tunnel") (sys_argv p) = true ->
  match except_clauses ade e p with
  | Finish _ p2 => developer_retries (output p2) = developer_retries (output p)
  | Reinvoke p2 =>
      developer_retries (output p2) = developer_retries (output p)
      /\ py_in (PyStr "--tunnel") (sys_argv p2) = true
  end.
Proof.
  intros Htun.
  destruct (decide (exc_class e = RSDRequiredError)) as [Hr|Hr].
  { rewrite except_rsd by assumption. simpl.
    rewrite developer_retries_app, py_in_app, Htun. split; [|reflexivity].
    unfold developer_retries at 2. rewrite filter_cons_False by discriminate.
    simpl. lia. }
  pose proof (except_clauses_output e p) as Hout.
  destruct (except_with_tunnel_finishes ade e p Htun Hr) as (r & p2 & Hfin & _).
  rewrite Hfin in *.
  destruct Hout as [(_ & -> & _) | (_ & _ & [(-> & _) | [(-> & _) |
                    [(m & -> & _) | (m & -> & _)]]])];
    first [ reflexivity
          | rewrite developer_retries_app; unfold developer_retries at 2;
            rewrite ?filter_cons_False by discriminate; simpl; lia ].
Qed.

Lemma main_with_tunnel_no_developer_retry
    (fuel : nat) (p : Process World) (r : MainResult) (p' : Process World) :
  py_in (PyStr "--tunnel") (sys_argv p) = true ->
  main cli ade fuel p = Some (r, p') ->
  developer_retries (output p') = developer_retries (output p).
Proof.
  revert p. induction fuel as [|fuel IH]; intros p Htun Hrun; [discriminate|].
  destruct (cli (world p) (sys_argv p)) as [[[]|e] w1] eqn:Hcli.
  - rewrite (main_ok _ _ _ _ _ Hcli) in Hrun. injection Hrun as <- <-.
    reflexivity.
  - rewrite (main_raise _ _ _ _ _ _ Hcli) in Hrun.
    pose proof (except_clauses_with_tunnel e
      (mkProcess (sys_argv p) (output p) (cli_calls p ++ [sys_argv p]) w1) Htun)
      as Hstep.
    destruct (except_clauses ade e _) as [r2 p2|p2]; simpl in Hstep.
    + injection Hrun as <- <-. exact Hstep.
    + destruct Hstep as [Hsame Htun2]. rewrite <- Hsame. apply IH; assumption.
Qed.

(** X14.  In a whole run of [main] the developer-command retry (the one an
    [InvalidServiceError] can trigger) takes place at most once, however
    often the command fails; and not at all when [--tunnel] was in
    [sys.argv] from the start. *)
Theorem developer_retry_at_most_once
    (fuel : nat) (p : Process World) (r : MainResult) (p' : Process World) :
  main cli ade fuel p = Some (r, p') ->
  developer_retries (output p') <= developer_retries (output p) + 1
  /\ (py_in (PyStr "--tunnel") (sys_argv p) = true ->
      developer_retries (output p') = developer_retries (output p)).
Proof.
  intros Hrun. split;
    [|intros Htun; eapply main_with_tunnel_no_developer_retry; eassumption].
  destruct fuel as [|fuel]; [discriminate|].
  destruct (cli (world p) (sys_argv p)) as [[[]|e] w1] eqn:Hcli.
  - rewrite (main_ok _ _ _ _ _ Hcli) in Hrun. injection Hrun as <- <-.
    simpl. lia.
  - rewrite (main_raise _ _ _ _ _ _ Hcli) in Hrun.
    set (p1 := mkProcess (sys_argv p) (output p) (cli_calls p ++ [sys_argv p]) w1)
      in Hrun.
    pose proof (except_clauses_output e p1) as Hout.
    pose proof (except_clauses_frame ade e p1) as Hf.
    destruct (except_clauses ade e p1) as [r2 p2|p2].
    + injection Hrun as <- <-.
      destruct Hout as [(_ & -> & _) | (_ & _ & [(-> & _) | [(-> & _) |
                        [(m & -> & _) | (m & -> & _)]]])];
        subst p1; simpl;
        first [ lia
              | rewrite developer_retries_app; unfold developer_retries at 2;
                rewrite ?filter_cons_False by discriminate; simpl; lia ].
    + destruct Hout as [m Ho]. destruct Hf as [Ha _].
      rewrite (main_with_tunnel_no_developer_retry fuel p2 r p'); [| |exact Hrun].
      * rewrite Ho, developer_retries_app. subst p1. simpl.
        unfold developer_retries at 2.
        destruct (decide (LogWarning m = LogWarning
                   "Trying again over tunneld since it is a developer command")).
        -- rewrite filter_cons_True by assumption. simpl. lia.
        -- rewrite filter_cons_False by assumption. simpl. lia.
      * rewrite Ha. apply tunnel_in_rewritten.
Qed.

End DispatchRuns.

(* ===================================================================== *)
(** ** More on the providers *)
(* ===================================================================== *)

Section LazyMore.
Import Lazy Dispatch Resolution.

Context {Obj Ctx Command : Type} `{!CommandGroupHandle Obj Ctx Command}.
Variable loader : string -> option (PyModule Obj).
Context `{!ImportFailure Obj}.

(** Neither split returns the empty list. *)
Lemma py_split1_nonempty (sep : Ascii.ascii) (s : string) :
  py_split1 sep s ≠ [].
Proof.
  destruct s as [|c rest]; simpl; [discriminate|].
  destruct (bool_decide (c = sep)); [discriminate|].
  destruct (py_split1 sep rest); discriminate.
Qed.

Lemma py_split_nonempty (sep : Ascii.ascii) (s : string) :
  py_split sep s ≠ [].
Proof.
  destruct s as [|c rest]; simpl; [discriminate|].
  destruct (bool_decide (c = sep)); [discriminate|].
  destruct (py_split sep rest); discriminate.
Qed.

(** A string without separator is its own single piece, also with one more
    character in front that is not the separator. *)
Lemma py_split1_cons_whole (sep c : Ascii.ascii) (a : string) :
  c ≠ sep -> py_split1 sep a = [a] -> py_split1 sep (String c a) = [String c a].
Proof.
  intros Hne Ha. simpl. rewrite bool_decide_eq_false_2 by exact Hne.
  rewrite Ha. reflexivity.
Qed.

Lemma py_split1_whole_inv (sep c : Ascii.ascii) (a : string) :
  py_split1 sep (String c a) = [String c a] ->
  c ≠ sep /\ py_split1 sep a = [a].
Proof.
  simpl. destruct (bool_decide (c = sep)) eqn:Hc; [discriminate|].
  apply bool_decide_eq_false_1 in Hc. intros Hs. split; [exact Hc|].
  destruct (py_split1 sep a) as [|hd tl] eqn:Ha.
  - exfalso. exact (py_split1_nonempty sep a Ha).
  - injection Hs as -> ->. reflexivity.
Qed.

(** X8.  [s.split(sep, 1)] has two pieces [a], [b] exactly when [s] is [a],
    the separator and [b], with no separator in [a]: splitting undoes
    joining and joining undoes splitting. *)
Theorem py_split1_two_pieces (sep : Ascii.ascii) (s a b : string) :
  py_split1 sep s = [a; b]
  <-> s = a +:+ String sep b /\ py_split1 sep a = [a].
Proof.
  split.
  - revert a. induction s as [|c rest IH]; intros a Hs; [discriminate|].
    simpl in Hs. destruct (bool_decide (c = sep)) eqn:Hc.
    + apply bool_decide_eq_true_1 in Hc. injection Hs as <- <-.
      subst c. split; reflexivity.
    + apply bool_decide_eq_false_1 in Hc.
      destruct (py_split1 sep rest) as [|hd tl] eqn:Hrest; [discriminate|].
      injection Hs as <- ->. destruct (IH hd eq_refl) as [-> Hhd].
      split; [reflexivity|]. apply py_split1_cons_whole; assumption.
  - intros [-> Ha]. induction a as [|c rest IH]; simpl.
    + rewrite bool_decide_eq_true_2 by reflexivity. reflexivity.
    + apply py_split1_whole_inv in Ha as [Hne Hrest].
      rewrite bool_decide_eq_false_2 by exact Hne.
      rewrite (IH Hrest). reflexivity.
Qed.

(** The first call on a fresh provider whose locator resolves. *)
Lemma perform_first (self : Pmd3Cli Obj) (module name : string)
      (m : PyModule Obj) (o : Obj) (st : Interp Obj) (c : Call) :
  _impg_slot self = None ->
  py_split1 colon (_import_name self) = [module; name] ->
  find_module loader st module = Some m ->
  mod_dict m !! name = Some o ->
  perform loader c self st =
    (delegate o c,
     mkPmd3Cli (_import_name self) (Lazy.name self) (group_short_help self) (Some o),
     mkInterp (<[module := m]> (sys_modules st)) (loads st ++ load_of st module)
       (stdout st ++ [PrintLocator module name; PrintElapsed; PrintElapsed])).
Proof.
  intros Hslot Hsplit Hfind Hattr.
  assert (_impg loader self st =
            (Ok o,
             mkPmd3Cli (_import_name self) (Lazy.name self)
               (group_short_help self) (Some o),
             mkInterp (<[module := m]> (sys_modules st))
               (loads st ++ load_of st module)
               (stdout st ++ [PrintLocator module name; PrintElapsed; PrintElapsed])))
    as Himpg.
  { unfold _impg. rewrite Hslot.
    rewrite (_impg_body_ok loader self module name m o st Hsplit Hfind Hattr).
    reflexivity. }
  destruct c; simpl; unfold get_command, list_commands; rewrite Himpg;
    reflexivity.
Qed.

(** X11.  Two providers whose locators name the same module load it once
    between them: the second finds it in [sys.modules]. *)
Theorem providers_share_one_load
    (a b : Pmd3Cli Obj) (module name_a name_b : string)
    (m : PyModule Obj) (oa ob : Obj) (st : Interp Obj) (ca cb : Call) :
  _impg_slot a = None -> _impg_slot b = None ->
  py_split1 colon (_import_name a) = [module; name_a] ->
  py_split1 colon (_import_name b) = [module; name_b] ->
  find_module loader st module = Some m ->
  mod_dict m !! name_a = Some oa ->
  mod_dict m !! name_b = Some ob ->
  exists a' st1 b' st2,
    perform loader ca a st = (delegate oa ca, a', st1)
    /\ perform loader cb b st1 = (delegate ob cb, b', st2)
    /\ _impg_slot a' = Some oa /\ _impg_slot b' = Some ob
    /\ loads st2 = loads st ++ load_of st module
    /\ sys_modules st2 = <[module := m]> (sys_modules st).
Proof.
  intros Hsa Hsb Hspa Hspb Hfind Ha Hb.
  eexists _, _, _, _.
  split; [apply (perform_first a module name_a m oa st ca); assumption|].
  split.
  - apply (perform_first b module name_b m ob); try assumption.
    unfold find_module. simpl. rewrite lookup_insert_eq. reflexivity.
  - simpl. unfold load_of at 2. simpl. rewrite lookup_insert_eq, app_nil_r.
    rewrite insert_insert_eq. auto.
Qed.

End LazyMore.

Section LocatorsAndModules.
Import Lazy Dispatch Resolution.

Context {Obj Ctx Command : Type} `{!CommandGroupHandle Obj Ctx Command}.
Variable loader : string -> option (PyModule Obj).
Context `{!ImportFailure Obj}.
Context {World : Type}.
Variable cli : World -> list PyVal -> PyResult unit * World.
Variable ade : string.

(** X9.  A locator without a colon makes the first call raise [ValueError]
    from the unpacking, before anything is printed or imported; nothing is
    stored, and [main] lets the [ValueError] through. *)
Theorem locator_without_colon_raises_value_error
    (self : Pmd3Cli Obj) (st : Interp Obj) :
  _impg_slot self = None ->
  py_split1 colon (_import_name self) = [_import_name self] ->
  fails_with loader cli ade self st st
    (plain_exc ValueError "not enough values to unpack (expected 2, got 1)").
Proof.
  intros Hslot Hsplit. apply fails_with_intro; [exact Hslot|reflexivity|].
  unfold _impg_body, mbind, M_bind. rewrite Hsplit. reflexivity.
Qed.

(** Both splits begin with the same piece. *)
Lemma head_py_split (sep : Ascii.ascii) (s : string) :
  head (py_split sep s) = head (py_split1 sep s).
Proof.
  induction s as [|c rest IH]; [reflexivity|]. simpl.
  destruct (bool_decide (c = sep)); [reflexivity|].
  pose proof (py_split_nonempty sep rest) as Hn.
  pose proof (py_split1_nonempty sep rest) as Hn1.
  destruct (py_split sep rest) as [|h t]; [done|].
  destruct (py_split1 sep rest) as [|h1 t1]; [done|].
  simpl in IH. injection IH as ->. reflexivity.
Qed.

(** A prefix without separator stays in front of the first piece. *)
Lemma head_py_split1_prefix (sep : Ascii.ascii) (prefix s : string) :
  py_split1 sep prefix = [prefix] ->
  head (py_split1 sep (prefix +:+ s))
  = (λ first, prefix +:+ first) <$> head (py_split1 sep s).
Proof.
  induction prefix as [|c rest IH]; intros Hp.
  - change (EmptyString +:+ s) with s.
    destruct (head (py_split1 sep s)); reflexivity.
  - apply py_split1_whole_inv in Hp as [Hne Hrest]. specialize (IH Hrest).
    simpl. rewrite bool_decide_eq_false_2 by exact Hne.
    pose proof (py_split1_nonempty sep (rest +:+ s)) as Hn.
    pose proof (py_split1_nonempty sep s) as Hn1.
    destruct (py_split1 sep (rest +:+ s)) as [|h t]; [done|].
    destruct (py_split1 sep s) as [|h1 t1]; [done|].
    simpl in *. injection IH as ->. reflexivity.
Qed.

(** X13.  [_get_module(name)] raises [KeyError] for a name that is not in
    [CLI_GROUPS], touching nothing; for a name that is, it imports exactly
    the module that the provider made for that entry resolves (the part of
    its locator before the colon). *)
Theorem _get_module_imports_provider_module
    (name : string) (st : Interp Obj) :
  (CLI_GROUPS_get name = None ->
   _get_module loader name st
   = (Raise (plain_exc (OtherError "KeyError") ("'" +:+ name +:+ "'")), st))
  /\ (forall (group : ClickGroup) (module attr : string),
        CLI_GROUPS_get name = Some group ->
        py_split1 colon ("pymobiledevice3.cli." +:+ import_group group)
        = [module; attr] ->
        _get_module loader name st = import_module loader module st).
Proof.
  split.
  - intros Hnone. unfold _get_module. rewrite Hnone. reflexivity.
  - intros group module attr Hget Hsplit. unfold _get_module. rewrite Hget.
    pose proof (head_py_split1_prefix colon "pymobiledevice3.cli."
                  (import_group group) eq_refl) as Hhead.
    rewrite Hsplit, <- head_py_split in Hhead.
    pose proof (py_split_nonempty colon (import_group group)) as Hn.
    destruct (py_split colon (import_group group)) as [|first rest]; [done|].
    simpl in Hhead. injection Hhead as ->. reflexivity.
Qed.

End LocatorsAndModules.

(* ===================================================================== *)
(** ** Whole runs and providers on the scenarios *)
(* ===================================================================== *)

Section MoreScenarios.
Import Lazy Dispatch Resolution Scenario.

Lemma main_terminates_without_rsd_witness :
  exists r p',
    main (cli_always (invalid_service (PyStr "UDID1"))) ade0 2 (start argv0)
    = Some (r, p')
    /\ length (cli_calls p') <= 0 + 2.
Proof.
  apply (main_terminates_without_rsd
           (cli_always (invalid_service (PyStr "UDID1"))) ade0 0 (start argv0)).
  intros w argv e w' [= <- _]. discriminate.
Defined.

(** The run of two retries and its final state. *)
Lemma two_retries_run :
  main (cli_failing 2 (rsd_required (PyStr "ABCD-1234"))) ade0 3 (start argv0) =
    Some (Returned,
          mkProcess
            (argv0 ++ [PyStr "--tunnel"; PyStr "ABCD-1234";
                       PyStr "--tunnel"; PyStr "ABCD-1234"])
            [LogWarning
               "Trying again over tunneld since RSD is required for this command";
             LogWarning
               "Trying again over tunneld since RSD is required for this command"]
            [argv0;
             argv0 ++ [PyStr "--tunnel"; PyStr "ABCD-1234"];
             argv0 ++ [PyStr "--tunnel"; PyStr "ABCD-1234";
                       PyStr "--tunnel"; PyStr "ABCD-1234"]]
            3).
Proof. vm_compute. reflexivity. Qed.

Lemma main_cli_calls_trace_witness :
  let p' :=
    mkProcess
      (argv0 ++ [PyStr "--tunnel"; PyStr "ABCD-1234";
                 PyStr "--tunnel"; PyStr "ABCD-1234"])
      [LogWarning
         "Trying again over tunneld since RSD is required for this command";
       LogWarning
         "Trying again over tunneld since RSD is required for this command"]
      [argv0;
       argv0 ++ [PyStr "--tunnel"; PyStr "ABCD-1234"];
       argv0 ++ [PyStr "--tunnel"; PyStr "ABCD-1234";
                 PyStr "--tunnel"; PyStr "ABCD-1234"]]
      3 in
  exists ids,
    sys_argv p' = argv0 ++ tunnel_pairs ids
    /\ cli_calls p' =
         [] ++ map (λ k, argv0 ++ tunnel_pairs (take k ids))
                   (seq 0 (S (length ids))).
Proof.
  intros p'.
  apply (main_cli_calls_trace
           (cli_failing 2 (rsd_required (PyStr "ABCD-1234"))) ade0 3
           (start argv0) Returned p' two_retries_run).
Defined.

Lemma main_one_warning_per_retry_witness :
  let p' :=
    mkProcess
      (argv0 ++ [PyStr "--tunnel"; PyStr "ABCD-1234";
                 PyStr "--tunnel"; PyStr "ABCD-1234"])
      [LogWarning
         "Trying again over tunneld since RSD is required for this command";
       LogWarning
         "Trying again over tunneld since RSD is required for this command"]
      [argv0;
       argv0 ++ [PyStr "--tunnel"; PyStr "ABCD-1234"];
       argv0 ++ [PyStr "--tunnel"; PyStr "ABCD-1234";
                 PyStr "--tunnel"; PyStr "ABCD-1234"]]
      3 in
  exists ws tail,
    output p' = [] ++ ws ++ tail
    /\ Forall (λ o, exists m, o = LogWarning m) ws
    /\ length (cli_calls p') = 0 + 1 + length ws
    /\ Forall (λ o, forall m, o ≠ LogWarning m) tail
    /\ length tail <= 2.
Proof.
  intros p'.
  apply (main_one_warning_per_retry
           (cli_failing 2 (rsd_required (PyStr "ABCD-1234"))) ade0 3
           (start argv0) Returned p' two_retries_run).
Defined.

Lemma only_no_device_selected_is_silent_witness :
  let e := plain_exc NoDeviceSelectedError "NoDeviceSelectedError" in
  main (cli_always e) ade0 1 (start argv0)
  = Some (Returned, mkProcess argv0 [] [argv0] 1)
  <-> exc_class e = NoDeviceSelectedError.
Proof.
  intros e.
  apply (only_no_device_selected_is_silent (cli_always e) ade0 0 (start argv0)
           e 1 eq_refl).
Defined.

Lemma traceback_only_for_two_kinds_witness :
  let e := plain_exc BrokenPipeError "[Errno 32] Broken pipe" in
  main (cli_always e) ade0 1 (start argv0)
  = Some (Returned, mkProcess argv0 [PrintExc e] [argv0] 1)
  /\ (PrintExc e ∈ []
      \/ exc_class e = MessageNotSupportedError
      \/ exc_class e = BrokenPipeError).
Proof.
  intros e. split; [reflexivity|].
  apply (traceback_only_for_two_kinds (cli_always e) ade0 1 (start argv0)
           Returned (mkProcess argv0 [PrintExc e] [argv0] 1) e eq_refl).
  simpl. apply list_elem_of_here.
Defined.

Lemma developer_retry_at_most_once_witness :
  let e := invalid_service (PyStr "UDID1") in
  main (cli_always e) ade0 2 (start argv0)
  = Some (Returned,
          mkProcess (argv0 ++ [PyStr "--tunnel"; PyStr "UDID1"])
            [LogWarning "Trying again over tunneld since it is a developer command";
             LogError INVALID_SERVICE_MESSAGE]
            [argv0; argv0 ++ [PyStr "--tunnel"; PyStr "UDID1"]] 2)
  /\ developer_retries
       [LogWarning "Trying again over tunneld since it is a developer command";
        LogError INVALID_SERVICE_MESSAGE] <= 0 + 1.
Proof.
  intros e. split; [reflexivity|].
  apply (developer_retry_at_most_once (cli_always e) ade0 2 (start argv0)
           Returned
           (mkProcess (argv0 ++ [PyStr "--tunnel"; PyStr "UDID1"])
              [LogWarning
                 "Trying again over tunneld since it is a developer command";
               LogError INVALID_SERVICE_MESSAGE]
              [argv0; argv0 ++ [PyStr "--tunnel"; PyStr "UDID1"]] 2)
           eq_refl).
Defined.

Lemma py_split1_two_pieces_witness :
  py_split1 colon "pymobiledevice3.cli.lockdown:lockdown_group"
  = ["pymobiledevice3.cli.lockdown"; "lockdown_group"].
Proof.
  apply (py_split1_two_pieces colon). split; reflexivity.
Defined.

Lemma locator_without_colon_witness :
  fails_with (Ctx := unit) (Command := string) loader0
    (cli_always
       (plain_exc ValueError "not enough values to unpack (expected 2, got 1)"))
    ade0 no_colon_provider interp0 interp0
    (plain_exc ValueError "not enough values to unpack (expected 2, got 1)").
Proof.
  apply (locator_without_colon_raises_value_error (Ctx := unit)
           (Command := string) loader0 _ ade0 no_colon_provider interp0
           eq_refl eq_refl).
Defined.

Lemma providers_share_one_load_witness :
  exists a' st1 b' st2,
    perform loader2 (CallGetCommand tt "foo") foo_provider interp0
    = (delegate foo_group (CallGetCommand tt "foo"), a', st1)
    /\ perform loader2 (CallListCommands tt) foo_cli_provider st1
       = (delegate (mk_click_Group (∅ : gmap string string)) (CallListCommands tt),
          b', st2)
    /\ _impg_slot a' = Some foo_group
    /\ _impg_slot b' = Some (mk_click_Group ∅)
    /\ loads st2 = [] ++ load_of interp0 "pymobiledevice3.cli.foo"
    /\ sys_modules st2 = <[ "pymobiledevice3.cli.foo" := foo_module2 ]> ∅.
Proof.
  apply (providers_share_one_load (Ctx := unit) (Command := string) loader2
           foo_provider foo_cli_provider "pymobiledevice3.cli.foo"
           "foo_group" "foo_cli" foo_module2 foo_group (mk_click_Group ∅)
           interp0 (CallGetCommand tt "foo") (CallListCommands tt)
           eq_refl eq_refl eq_refl eq_refl eq_refl eq_refl eq_refl).
Defined.

Lemma _get_module_witness :
  _get_module loader_afc "pcap" interp0
  = (Raise (plain_exc (OtherError "KeyError") "'pcap'"), interp0)
  /\ _get_module loader_afc "afc" interp0
     = import_module loader_afc "pymobiledevice3.cli.afc" interp0.
Proof.
  destruct (_get_module_imports_provider_module loader_afc "pcap" interp0)
    as [Hkey _].
  destruct (_get_module_imports_provider_module loader_afc "afc" interp0)
    as [_ Hin].
  split; [apply Hkey; reflexivity|].
  apply (Hin (mkClickGroup "afc:afc" "FileSystem utils")
             "pymobiledevice3.cli.afc" "afc"); reflexivity.
Defined.

End MoreScenarios.
